(** * The Joy of Painting API: the CSV importer and the episode endpoints

    A shallow embedding of [data_importer.py] and [app.py].

    Python values are modelled as follows.
    - [str] is [string]; a character is an [ascii], so the code points
      covered are 0..255.
    - a [dict] with string keys is a [gmap string _]; a [set] of strings is
      a [gset string].
    - an exception is a value of [exn]; code that may raise returns a
      [result].
    - a CSV file is the list of rows [csv.reader] yields for it, a row being
      the list of its fields.
    - the MySQL store is an in-memory record of tables with their
      AUTO_INCREMENT counters; an INSERT on a defined table is accepted as
      it is (column types and lengths are the engine's business). *)

From Stdlib Require Import ZArith String Ascii List Bool Lia.
From stdpp Require Import base option list gmap sets strings.

Local Open Scope string_scope.
Local Open Scope list_scope.
Local Open Scope Z_scope.

(** ** Exceptions and fallible computations *)

(** The exceptions the interpreter raises in the importer. *)
Inductive exn : Type :=
| KeyError (key : string)
| ValueError (literal : string)
| StopIteration
| FileNotFoundError (filename : string)
| AttributeError (attr : string).

(** An error of the MySQL driver, kept as the text [str(e)] gives. *)
Inductive mysql_error : Type :=
| MySQLError (message : string).

Definition str (e : mysql_error) : string :=
  match e with MySQLError message => message end.

Inductive result (E A : Type) : Type :=
| Ok (a : A)
| Raise (e : E).

Arguments Ok {E A} a.
Arguments Raise {E A} e.

Definition bind {E A B : Type} (m : result E A) (k : A -> result E B)
  : result E B :=
  match m with
  | Ok a => k a
  | Raise e => Raise e
  end.

Notation "'let*' x ':=' m 'in' k" := (bind m (fun x => k))
  (at level 10, x name, m at level 100, k at level 200).

Definition is_ok {E A : Type} (m : result E A) : bool :=
  match m with Ok _ => true | Raise _ => false end.

(** ** Python's string primitives *)

Module Py.

(** [str.isspace] on one character, for the code points 0..255:
    TAB..CR, FS..US, SPACE, NEL and NBSP. *)
Definition isspace (c : ascii) : bool :=
  let n := N_of_ascii c in
  ((9 <=? n) && (n <=? 13) || (28 <=? n) && (n <=? 31)
   || (n =? 32) || (n =? 133) || (n =? 160))%N.

(** [str.strip()] works on both ends: it skips whitespace from the left,
    then from the right, and returns the slice in between. *)
Fixpoint lstrip_chars (s : list ascii) : list ascii :=
  match s with
  | [] => []
  | c :: r => if isspace c then lstrip_chars r else s
  end.

Definition rstrip_chars (s : list ascii) : list ascii :=
  rev (lstrip_chars (rev s)).

Definition strip (s : string) : string :=
  string_of_list_ascii (rstrip_chars (lstrip_chars (list_ascii_of_string s))).

(** [s.split(sep)] for a one-character separator: the fields between the
    separators, empty fields included; never the empty list. *)
Fixpoint split (sep : ascii) (s : string) : list string :=
  match s with
  | EmptyString => [EmptyString]
  | String c r =>
      if Ascii.eqb c sep then EmptyString :: split sep r
      else match split sep r with
           | [] => [String c EmptyString]
           | t :: ts => String c t :: ts
           end
  end.

(** [int(s)] in base 10.  A non-ASCII string first has its Unicode spaces
    turned into blanks (any other character from DEL upwards makes the
    literal invalid); then: C whitespace, an optional sign, digits with
    single underscores between them, C whitespace, end of string.
    (The interpreter's optional cap on the number of digits is left out.) *)
Definition is_c_space (c : ascii) : bool :=
  let n := N_of_ascii c in ((9 <=? n) && (n <=? 13) || (n =? 32))%N.

Definition is_ascii_char (c : ascii) : bool := (N_of_ascii c <? 128)%N.

Definition digit_value (c : ascii) : option Z :=
  let n := N_of_ascii c in
  if ((48 <=? n) && (n <=? 57))%N then Some (Z.of_N n - 48) else None.

Definition transform_space (c : ascii) : option ascii :=
  if (N_of_ascii c <? 127)%N then Some c
  else if isspace c then Some " "%char
  else None.

Fixpoint transform_spaces (s : list ascii) : option (list ascii) :=
  match s with
  | [] => Some []
  | c :: r =>
      match transform_space c, transform_spaces r with
      | Some c', Some r' => Some (c' :: r')
      | _, _ => None
      end
  end.

Fixpoint skip_c_space (s : list ascii) : list ascii :=
  match s with
  | [] => []
  | c :: r => if is_c_space c then skip_c_space r else s
  end.

(** The digits scan: [acc] is the value so far, [prev_us] tells whether
    the previous character was an underscore.  It returns the value and
    the unread rest, or [None] for a doubled or trailing underscore. *)
Fixpoint scan_digits (acc : Z) (prev_us : bool) (s : list ascii)
  : option (Z * list ascii) :=
  match s with
  | [] => if prev_us then None else Some (acc, [])
  | c :: r =>
      match digit_value c with
      | Some d => scan_digits (10 * acc + d) false r
      | None =>
          if Ascii.eqb c "_"%char
          then (if prev_us then None else scan_digits acc true r)
          else (if prev_us then None else Some (acc, s))
      end
  end.

Definition long_from_chars (s : list ascii) : option Z :=
  let s1 := skip_c_space s in
  let '(sign, s2) :=
    match s1 with
    | c :: r =>
        if Ascii.eqb c "+"%char then (1, r)
        else if Ascii.eqb c "-"%char then (-1, r)
        else (1, s1)
    | [] => (1, s1)
    end in
  match s2 with
  | c :: _ =>
      match digit_value c with
      | None => None
      | Some _ =>
          match scan_digits 0 false s2 with
          | Some (v, rest) =>
              match skip_c_space rest with
              | [] => Some (sign * v)
              | _ :: _ => None
              end
          | None => None
          end
      end
  | [] => None
  end.

Definition parse_int (s : string) : option Z :=
  let cs := list_ascii_of_string s in
  if forallb is_ascii_char cs then long_from_chars cs
  else match transform_spaces cs with
       | Some cs' => long_from_chars cs'
       | None => None
       end.

Definition int (s : string) : result exn Z :=
  match parse_int s with
  | Some z => Ok z
  | None => Raise (ValueError s)
  end.

(** [dict(pairs)]: the pairs are inserted from left to right, a later pair
    for a key replacing an earlier one. *)
Definition dict {V : Type} (pairs : list (string * V)) : gmap string V :=
  fold_left (fun m kv => <[kv.1 := kv.2]> m) pairs ∅.

(** [d[key]] *)
Definition getitem {V : Type} (d : gmap string V) (key : string)
  : result exn V :=
  match d !! key with
  | Some v => Ok v
  | None => Raise (KeyError key)
  end.

End Py.

(** ** The CSV loader: [CSVReader.read_file] *)

Module CSVReader.

(** [open(filename)] followed by [csv.reader(file)]: the rows of the file,
    or the exception [open] raises for a file that is not there. *)
Definition open_reader (fs : gmap string (list (list string)))
  (filename : string) : result exn (list (list string)) :=
  match fs !! filename with
  | Some rows => Ok rows
  | None => Raise (FileNotFoundError filename)
  end.

(** [next(reader)]: the first unread row and the reader after it. *)
Definition next (reader : list (list string))
  : result exn (list string * list (list string)) :=
  match reader with
  | [] => Raise StopIteration
  | row :: rest => Ok (row, rest)
  end.

(** The [for row in reader] loop with its [data.append]. *)
Fixpoint read_rows (columns : list string) (reader : list (list string))
  (data : list (gmap string string)) : list (gmap string string) :=
  match reader with
  | [] => data
  | row :: rest =>
      if (length row =? length columns)%nat
      then read_rows columns rest (data ++ [Py.dict (zip columns row)])
      else read_rows columns rest data
  end.

Definition read_file (fs : gmap string (list (list string)))
  (filename : string) (columns : option (list string))
  : result exn (list (gmap string string)) :=
  let* file := open_reader fs filename in
  let reader := file in
  let* cr :=
    match columns with
    | None =>
        let* hr := next reader in
        (* file.seek(0); reader = csv.reader(file) *)
        Ok (hr.1, file)
    | Some columns => Ok (columns, reader)
    end in
  Ok (read_rows cr.1 cr.2 []).

End CSVReader.

(** ** The relational schema: [DataImporter.setup_tables] *)

Module Schema.

Inductive column_type : Type :=
| INT
| VARCHAR (n : Z)
| DATE.

Record column : Type := Column {
  column_name : string;
  column_type_of : column_type;
  auto_increment_primary_key : bool
}.

Record foreign_key : Type := ForeignKey {
  fk_column : string;
  fk_table : string;
  fk_references : string
}.

Record table_def : Type := Table {
  table_name : string;
  columns : list column;
  foreign_keys : list foreign_key
}.

Definition find_table (schema : list table_def) (name : string)
  : option table_def :=
  List.find (fun d => String.eqb (table_name d) name) schema.

Definition has_column (d : table_def) (name : string) : bool :=
  existsb (fun c => String.eqb (column_name c) name) (columns d).

Definition has_key (d : table_def) (name : string) : bool :=
  existsb (fun c => String.eqb (column_name c) name
                    && auto_increment_primary_key c) (columns d).

(** A foreign key of a new table is accepted when its column is one of the
    table's and it points at a key column of a table already there. *)
Definition foreign_key_ok (schema : list table_def) (d : table_def)
  (fk : foreign_key) : bool :=
  has_column d (fk_column fk)
  && match find_table schema (fk_table fk) with
     | Some parent => has_key parent (fk_references fk)
     | None => false
     end.

Definition dq : string := String "034"%char EmptyString.

Definition cannot_open_referenced (t : string) : mysql_error :=
  MySQLError ("(1824, " +:+ dq +:+ "Failed to open the referenced table '"
              +:+ t +:+ "'" +:+ dq +:+ ")").

(** [CREATE TABLE IF NOT EXISTS]: nothing happens when a table of that
    name is there; otherwise the definition is added, unless one of its
    foreign keys is refused. *)
Definition create_table_if_not_exists (schema : list table_def)
  (d : table_def) : result mysql_error (list table_def) :=
  match find_table schema (table_name d) with
  | Some _ => Ok schema
  | None =>
      match List.find (fun fk => negb (foreign_key_ok schema d fk))
                      (foreign_keys d) with
      | Some fk => Raise (cannot_open_referenced (fk_table fk))
      | None => Ok (schema ++ [d])
      end
  end.

Definition queries : list table_def :=
  [ Table "episodes"
      [ Column "episode_id" INT true;
        Column "title" (VARCHAR 255) false;
        Column "season_number" INT false;
        Column "episode_number" INT false;
        Column "painting_img_src" (VARCHAR 255) false;
        Column "painting_yt_src" (VARCHAR 255) false;
        Column "air_date" DATE false ]
      [];
    Table "colors"
      [ Column "color_id" INT true;
        Column "color_name" (VARCHAR 255) false;
        Column "color_hex" (VARCHAR 255) false ]
      [];
    Table "episode_colors"
      [ Column "episode_id" INT false;
        Column "color_id" INT false ]
      [ ForeignKey "episode_id" "episodes" "episode_id";
        ForeignKey "color_id" "colors" "color_id" ];
    Table "subject_matters"
      [ Column "subject_matter_id" INT true;
        Column "subject_matter_name" (VARCHAR 255) false ]
      [];
    Table "episode_subject_matters"
      [ Column "episode_id" INT false;
        Column "subject_matter_id" INT false ]
      [ ForeignKey "episode_id" "episodes" "episode_id";
        ForeignKey "subject_matter_id" "subject_matters" "subject_matter_id" ]
  ].

(** The loop [for table_name, query in queries.items(): cursor.execute(query)]. *)
Fixpoint execute_all (qs : list table_def) (schema : list table_def)
  : result mysql_error (list table_def) :=
  match qs with
  | [] => Ok schema
  | q :: rest =>
      let* schema' := create_table_if_not_exists schema q in
      execute_all rest schema'
  end.

Definition setup_tables (schema : list table_def)
  : result mysql_error (list table_def) :=
  execute_all queries schema.

(** Invoking the initializer [n] times in succession. *)
Fixpoint setup_tables_times (n : nat) (schema : list table_def)
  : result mysql_error (list table_def) :=
  match n with
  | O => Ok schema
  | S k => let* schema' := setup_tables schema in setup_tables_times k schema'
  end.

(** A join table declares foreign keys; a base table has its own generated
    key and no foreign key. *)
Definition is_join_table (d : table_def) : bool :=
  negb (Nat.eqb (length (foreign_keys d)) 0).

Definition is_base_table (d : table_def) : bool :=
  existsb auto_increment_primary_key (columns d)
  && Nat.eqb (length (foreign_keys d)) 0.

Definition definitions_of (schema : list table_def) (name : string)
  : list table_def :=
  List.filter (fun d => String.eqb (table_name d) name) schema.

End Schema.

(** ** The stored data *)

Record episode_row : Type := Episode {
  episode_id : Z;
  title : string;
  season_number : Z;
  episode_number : Z;
  painting_img_src : string;
  painting_yt_src : string;
  air_date : option string
}.

Record color_row : Type := Color {
  color_id : Z;
  color_name : string;
  color_hex : string
}.

Record subject_matter_row : Type := SubjectMatter {
  subject_matter_id : Z;
  subject_matter_name : string
}.

(** A table with a generated key: its rows in insertion order and the next
    AUTO_INCREMENT value. *)
Record table (R : Type) : Type := MkTable {
  rows : list R;
  auto_increment : Z
}.

Arguments MkTable {R} rows auto_increment.
Arguments rows {R} t.
Arguments auto_increment {R} t.

Definition empty_table {R : Type} : table R := MkTable [] 1.

(** [INSERT] into a table with a generated key. *)
Definition insert {R : Type} (mk : Z -> R) (t : table R) : table R :=
  MkTable (rows t ++ [mk (auto_increment t)]) (auto_increment t + 1).

Record database : Type := Database {
  episodes : table episode_row;
  colors : table color_row;
  subject_matters : table subject_matter_row;
  episode_colors : list (Z * Z);
  episode_subject_matters : list (Z * Z)
}.

Definition empty_database : database :=
  Database empty_table empty_table empty_table [] [].

(** ** The importer: [DataImporter] *)

Module DataImporter.

(** One import phase: it runs on the connection's tables and either
    commits what it inserted or raises, in which case nothing of the phase
    is committed. *)
Definition phase : Type := database -> result exn unit * database.

(** [next((date['Date'] for date in dates_data
           if date['Title'].strip() == title), None)] *)
Fixpoint next_date (dates_data : list (gmap string string)) (title : string)
  : result exn (option string) :=
  match dates_data with
  | [] => Ok None
  | date :: rest =>
      let* t := Py.getitem date "Title" in
      if String.eqb (Py.strip t) title
      then let* d := Py.getitem date "Date" in Ok (Some d)
      else next_date rest title
  end.

(** The body of the loop of [_import_episodes] for one row. *)
Definition import_episode (dates_data : list (gmap string string))
  (row : gmap string string) (cursor : table episode_row)
  : result exn (table episode_row) :=
  let* title := Py.getitem row "painting_title" in
  let* season_field := Py.getitem row "season" in
  let* season := Py.int season_field in
  let* episode_field := Py.getitem row "episode" in
  let* episode := Py.int episode_field in
  let* img_src := Py.getitem row "img_src" in
  let* youtube_src := Py.getitem row "youtube_src" in
  let* air_date := next_date dates_data title in
  Ok (insert (fun id => Episode id title season episode img_src youtube_src
                                air_date) cursor).

Fixpoint import_episodes_loop (dates_data colors_data : list (gmap string string))
  (cursor : table episode_row) : result exn (table episode_row) :=
  match colors_data with
  | [] => Ok cursor
  | row :: rest =>
      let* cursor' := import_episode dates_data row cursor in
      import_episodes_loop dates_data rest cursor'
  end.

Definition _import_episodes (colors_data dates_data : list (gmap string string))
  : phase := fun db =>
  match import_episodes_loop dates_data colors_data (episodes db) with
  | Ok t =>
      (Ok (), Database t (colors db) (subject_matters db)
                       (episode_colors db) (episode_subject_matters db))
  | Raise e => (Raise e, db)
  end.

(** [[(row['colors'], row['color_hex']) for row in colors_data]] *)
Fixpoint color_names_hex (colors_data : list (gmap string string))
  : result exn (list (string * string)) :=
  match colors_data with
  | [] => Ok []
  | row :: rest =>
      let* color := Py.getitem row "colors" in
      let* hex := Py.getitem row "color_hex" in
      let* others := color_names_hex rest in
      Ok ((color, hex) :: others)
  end.

Definition insert_colors (pairs : list (string * string))
  (cursor : table color_row) : table color_row :=
  fold_left (fun t ch => insert (fun id => Color id ch.1 ch.2) t) pairs cursor.

Definition _import_colors (colors_data : list (gmap string string))
  : phase := fun db =>
  match color_names_hex colors_data with
  | Ok pairs =>
      (Ok (), Database (episodes db) (insert_colors pairs (colors db))
                       (subject_matters db)
                       (episode_colors db) (episode_subject_matters db))
  | Raise e => (Raise e, db)
  end.

(** The first loop of [_import_subject_matters]: the set of all tags. *)
Fixpoint collect_subjects (subject_matters_data : list (gmap string string))
  (subject_matters : gset string) : result exn (gset string) :=
  match subject_matters_data with
  | [] => Ok subject_matters
  | row :: rest =>
      let* field := Py.getitem row "EPISODE" in
      let subjects := Py.split ";" field in
      collect_subjects rest (subject_matters ∪ list_to_set subjects)
  end.

(** The second loop: one INSERT per element of the set, in the order the
    set is iterated. *)
Definition insert_subjects (subjects : list string)
  (cursor : table subject_matter_row) : table subject_matter_row :=
  fold_left (fun t s => insert (fun id => SubjectMatter id s) t) subjects cursor.

Definition _import_subject_matters
  (subject_matters_data : list (gmap string string)) : phase := fun db =>
  match collect_subjects subject_matters_data ∅ with
  | Ok subject_matters_set =>
      (Ok (), Database (episodes db) (colors db)
                       (insert_subjects (elements subject_matters_set)
                                        (subject_matters db))
                       (episode_colors db) (episode_subject_matters db))
  | Raise e => (Raise e, db)
  end.

(** The three datasets [import_data] reads. *)
Record datasets : Type := Datasets {
  colors_data : list (gmap string string);
  subject_matters_data : list (gmap string string);
  dates_data : list (gmap string string)
}.

(** The methods the class body of [DataImporter] defines for the phases of
    an import, by name.  There is no other: the class defines
    [__init__], [setup_tables], [import_data] and these three. *)
Definition methods : list (string * (datasets -> phase)) :=
  [ ("_import_episodes",
       fun d => _import_episodes (colors_data d) (dates_data d));
    ("_import_colors",
       fun d => _import_colors (colors_data d));
    ("_import_subject_matters",
       fun d => _import_subject_matters (subject_matters_data d)) ].

Fixpoint lookup_method (name : string)
  (ms : list (string * (datasets -> phase))) : option (datasets -> phase) :=
  match ms with
  | [] => None
  | (n, m) :: rest => if String.eqb n name then Some m else lookup_method name rest
  end.

(** [self.<name>(...)]: the attribute is looked up first, and a name the
    class does not define raises [AttributeError]. *)
Definition call_method (name : string) (d : datasets) : phase := fun db =>
  match lookup_method name methods with
  | Some m => m d db
  | None => (Raise (AttributeError name), db)
  end.

(** Sequencing inside the [try] block: the first exception ends it. *)
Definition and_then (p q : phase) : phase := fun db =>
  match p db with
  | (Ok _, db') => q db'
  | (Raise e, db') => (Raise e, db')
  end.

Definition colors_file : string := "The Joy Of Painting - Colors Used.csv".
Definition subject_matter_file : string := "The Joy Of Painting - Subject Matter.csv".
Definition dates_file : string := "The Joy Of Painting - Episode Dates.csv".

Definition colors_columns : list string :=
  ["painting_title"; "season"; "episode"; "img_src"; "youtube_src"; "colors";
   "color_hex"].

(** The three reads at the head of [import_data]; [data_dir] is the data
    directory, as the map from the names of its files to their rows. *)
Definition read_datasets (data_dir : gmap string (list (list string)))
  : result exn datasets :=
  let* colors_data :=
    CSVReader.read_file data_dir colors_file (Some colors_columns) in
  let* subject_matters_data :=
    CSVReader.read_file data_dir subject_matter_file (Some ["EPISODE"]) in
  let* dates_data :=
    CSVReader.read_file data_dir dates_file (Some ["Title"; "Date"]) in
  Ok (Datasets colors_data subject_matters_data dates_data).

Definition import_data (data_dir : gmap string (list (list string)))
  : phase := fun db =>
  match read_datasets data_dir with
  | Raise e => (Raise e, db)
  | Ok d =>
      and_then (call_method "_import_episodes" d)
     (and_then (call_method "_import_colors" d)
     (and_then (call_method "_import_subject_matters" d)
     (and_then (call_method "_import_episode_colors" d)
               (call_method "_import_episode_subject_matters" d)))) db
  end.

End DataImporter.

(** ** The HTTP endpoints of [app.py] *)

Module App.

(** A [datetime.date]: a year from 1 to 9999, a month and a day of that
    month. *)
Record date : Type := Date {
  year : Z;
  month : Z;
  day : Z
}.

(** The calendar arithmetic of [datetime]: leap years, the days before a
    year and before a month, the ordinal of a date and its weekday, Monday
    being 0. *)
Definition is_leap (y : Z) : bool :=
  (y mod 4 =? 0) && (negb (y mod 100 =? 0) || (y mod 400 =? 0)).

Definition days_before_year (y : Z) : Z :=
  let y := y - 1 in y * 365 + y / 4 - y / 100 + y / 400.

Definition days_before_month (y m : Z) : Z :=
  nth (Z.to_nat m) [0; 0; 31; 59; 90; 120; 151; 181; 212; 243; 273; 304; 334] 0
  + (if (2 <? m) && is_leap y then 1 else 0).

Definition toordinal (d : date) : Z :=
  days_before_year (year d) + days_before_month (year d) (month d) + day d.

Definition weekday (d : date) : Z := (toordinal d + 6) mod 7.

Definition digit (n : Z) : string :=
  String (ascii_of_N (48 + Z.to_N (n mod 10))) EmptyString.

(** [%02d] and [%04d], for numbers below 100 and below 10000. *)
Definition two_digits (n : Z) : string := digit (n / 10) +:+ digit n.

Definition four_digits (n : Z) : string :=
  digit (n / 1000) +:+ digit (n / 100) +:+ digit (n / 10) +:+ digit n.

Definition day_name (w : Z) : string :=
  nth (Z.to_nat w) ["Mon"; "Tue"; "Wed"; "Thu"; "Fri"; "Sat"; "Sun"] "".

Definition month_name (m : Z) : string :=
  nth (Z.to_nat (m - 1))
      ["Jan"; "Feb"; "Mar"; "Apr"; "May"; "Jun";
       "Jul"; "Aug"; "Sep"; "Oct"; "Nov"; "Dec"] "".

(** The HTTP date [jsonify] writes for a date: the date at midnight, GMT. *)
Definition http_date (d : date) : string :=
  day_name (weekday d) +:+ ", " +:+ two_digits (day d) +:+ " "
  +:+ month_name (month d) +:+ " " +:+ four_digits (year d)
  +:+ " 00:00:00 GMT".

(** A value the cursor hands out for a column of a row. *)
Inductive value : Type :=
| VNone
| VInt (n : Z)
| VStr (s : string)
| VDate (d : date).

(** The store as a request sees it: [pymysql.connect] and
    [cursor.execute] each either go through or raise the driver's error
    recorded here; [date_column] is what the cursor hands out for the
    [air_date] of a row, given the text the importer sent for it: the engine
    keeps a DATE for the text and the driver makes a [datetime.date] of it
    (or hands out the text it cannot read as a date). *)
Record storage : Type := Storage {
  connect_error : option mysql_error;
  execute_error : option mysql_error;
  stored : database;
  date_column : string -> value
}.

Inductive json_value : Type :=
| JNull
| JNumber (n : Z)
| JString (s : string).

Record response : Type := Response {
  status : Z;
  body : gmap string json_value
}.

Definition get_db_connection (s : storage) : result mysql_error database :=
  match connect_error s with
  | Some e => Raise e
  | None => Ok (stored s)
  end.

(** [cursor.description] after a [SELECT * FROM episodes]. *)
Definition description : list string :=
  ["episode_id"; "title"; "season_number"; "episode_number";
   "painting_img_src"; "painting_yt_src"; "air_date"].

(** A stored row as the tuple the cursor hands out. *)
Definition row_tuple (date_column : string -> value) (e : episode_row)
  : list value :=
  [ VInt (episode_id e); VStr (title e); VInt (season_number e);
    VInt (episode_number e); VStr (painting_img_src e);
    VStr (painting_yt_src e);
    match air_date e with Some d => date_column d | None => VNone end ].

(** [cursor.execute("SELECT * FROM episodes WHERE episode_id = %s", ...)]:
    the result set. *)
Definition execute_select_by_id (s : storage) (connection : database)
  (id : Z) : result mysql_error (list (list value)) :=
  match execute_error s with
  | Some e => Raise e
  | None =>
      Ok (map (row_tuple (date_column s))
            (List.filter (fun e => episode_id e =? id)
                         (rows (episodes connection))))
  end.

Definition fetchone (results : list (list value)) : option (list value) :=
  match results with
  | [] => None
  | r :: _ => Some r
  end.

(** How [jsonify] writes a value: [None] as null, a date as its HTTP
    date. *)
Definition to_json (v : value) : json_value :=
  match v with
  | VNone => JNull
  | VInt n => JNumber n
  | VStr s => JString s
  | VDate d => JString (http_date d)
  end.

(** [jsonify(value)] of a dict is 200 unless a status is given with it. *)
Definition jsonify (fields : gmap string value) : response :=
  Response 200 (to_json <$> fields).

Definition with_status (r : response) (code : Z) : response :=
  Response code (body r).

Definition error_object (message : string) : gmap string value :=
  Py.dict [("error", VStr message)].

(** The handler of [/api/episodes/<int:episode_id>]: the route hands it a
    number written with digits only, so never a negative one. *)
Definition get_episode (s : storage) (episode_id : N) : response :=
  let attempt : result mysql_error response :=
    let* connection := get_db_connection s in
    let* results := execute_select_by_id s connection (Z.of_N episode_id) in
    let columns := description in
    let result := fetchone results in
    match result with
    | Some ((_ :: _) as tuple) => Ok (jsonify (Py.dict (zip columns tuple)))
    | Some [] | None =>
        Ok (with_status (jsonify (error_object "Episode not found")) 404)
    end in
  match attempt with
  | Ok r => r
  | Raise e => with_status (jsonify (error_object (str e))) 500
  end.

(** A JSON document: one flat object, or an array of flat objects. *)
Inductive json : Type :=
| JObject (fields : gmap string json_value)
| JArray (items : list (gmap string json_value)).

Record json_response : Type := JsonResponse {
  json_status : Z;
  json_body : json
}.

(** [cursor.execute("SELECT * FROM episodes")]: the result set. *)
Definition execute_select_all (s : storage) (connection : database)
  : result mysql_error (list (list value)) :=
  match execute_error s with
  | Some e => Raise e
  | None => Ok (map (row_tuple (date_column s)) (rows (episodes connection)))
  end.

Definition fetchall (results : list (list value)) : list (list value) :=
  results.

Definition get_episodes (s : storage) : json_response :=
  let attempt : result mysql_error json_response :=
    let* connection := get_db_connection s in
    let* results := execute_select_all s connection in
    let columns := description in
    let results := fetchall results in
    let episodes := map (fun row => Py.dict (zip columns row)) results in
    Ok (JsonResponse 200 (JArray (map (fmap to_json) episodes))) in
  match attempt with
  | Ok r => r
  | Raise e =>
      JsonResponse 500 (JObject (to_json <$> error_object (str e)))
  end.

End App.

(** ** The entry point: [DatabaseManager] and [main] *)

Module Main.

(** The MySQL server as [main] meets it: whether it refuses the
    connection, the tables it has, and the rows stored. *)
Record server : Type := Server {
  refuses : option mysql_error;
  schema : list Schema.table_def;
  data : database
}.

(** [DatabaseManager.connect]: the driver's error is printed and raised
    again. *)
Definition connect (srv : server) : result mysql_error () :=
  match refuses srv with
  | Some e => Raise e
  | None => Ok ()
  end.

(** What [main] prints last: the success line, or the error line with the
    exception it caught, an error of the driver or an exception of the
    importer. *)
Inductive report : Type :=
| Completed
| ErrorDuringImport (e : mysql_error + exn).

(** [main]: connect, build the [DataImporter] (which sets the tables up),
    run [import_data], print the success line; any exception on the way
    leaves the [with] block, which closes the connection, and is caught and
    printed.  The result is the last line and the rows stored at the end.
    The import is the one of [DataImporter]: its INSERTs go to tables that
    take them, which the tables [setup_tables] defines do. *)
Definition main (srv : server) (data_dir : gmap string (list (list string)))
  : report * database :=
  match connect srv with
  | Raise e => (ErrorDuringImport (inl e), data srv)
  | Ok _ =>
      match Schema.setup_tables (schema srv) with
      | Raise e => (ErrorDuringImport (inl e), data srv)
      | Ok _ =>
          match DataImporter.import_data data_dir (data srv) with
          | (Ok _, db) => (Completed, db)
          | (Raise e, db) => (ErrorDuringImport (inr e), db)
          end
      end
  end.

End Main.

(** ** Vocabulary of the statements *)

(** The records the loader builds from the rows that have as many fields
    as there are columns. *)
Definition records_of (columns : list string) (file : list (list string))
  : list (gmap string string) :=
  map (fun row => Py.dict (zip columns row))
      (List.filter (fun row => (length row =? length columns)%nat) file).

(** A record answers every key of a list. *)
Definition has_keys (keys : list string) (d : gmap string string) : bool :=
  forallb (fun k => bool_decide (is_Some (d !! k))) keys.

Arguments has_keys : simpl never.

(** A field is there and [int] accepts it. *)
Definition int_field (row : gmap string string) (key : string) : bool :=
  match row !! key with
  | Some s => is_ok (Py.int s)
  | None => false
  end.

Definition episode_keys : list string :=
  ["painting_title"; "season"; "episode"; "img_src"; "youtube_src"].

Definition valid_color_row (row : gmap string string) : bool :=
  has_keys episode_keys row && int_field row "season" && int_field row "episode".

Arguments valid_color_row : simpl never.

(** A string that begins or ends with a whitespace character. *)
Definition outer_space (s : string) : bool :=
  match list_ascii_of_string s with
  | [] => false
  | c :: r => Py.isspace c || Py.isspace (List.last (c :: r) c)
  end.

(** The Episode a color row stands for, given the dates dataset: the
    fields of the row, the integers of its numeric fields, and the air
    date the lookup gives. *)
Definition episode_of_row (dates_data : list (gmap string string))
  (row : gmap string string) (e : episode_row) : Prop :=
  row !! "painting_title" = Some (title e)
  /\ (exists s, row !! "season" = Some s /\ Py.int s = Ok (season_number e))
  /\ (exists s, row !! "episode" = Some s /\ Py.int s = Ok (episode_number e))
  /\ row !! "img_src" = Some (painting_img_src e)
  /\ row !! "youtube_src" = Some (painting_yt_src e)
  /\ DataImporter.next_date dates_data (title e) = Ok (air_date e).

(** The database after a phase has added [new] rows to the episodes. *)
Definition with_new_episodes (db : database) (new : list episode_row)
  : database :=
  Database (MkTable (rows (episodes db) ++ new)
                    (auto_increment (episodes db) + Z.of_nat (length new)))
           (colors db) (subject_matters db)
           (episode_colors db) (episode_subject_matters db).

Definition with_new_subject_matters (db : database)
  (new : list subject_matter_row) : database :=
  Database (episodes db) (colors db)
           (MkTable (rows (subject_matters db) ++ new)
                    (auto_increment (subject_matters db) + Z.of_nat (length new)))
           (episode_colors db) (episode_subject_matters db).

(** The reading of a malformed numeric field as a per-row error: the row
    is left out and the loop goes on with the next row. *)
Fixpoint import_episodes_skipping (dates_data colors_data : list (gmap string string))
  (cursor : table episode_row) : table episode_row :=
  match colors_data with
  | [] => cursor
  | row :: rest =>
      match DataImporter.import_episode dates_data row cursor with
      | Ok cursor' => import_episodes_skipping dates_data rest cursor'
      | Raise _ => import_episodes_skipping dates_data rest cursor
      end
  end.

Definition skips_malformed_rows (colors_data dates_data : list (gmap string string))
  (db : database) : Prop :=
  exists db',
    DataImporter._import_episodes colors_data dates_data db = (Ok (), db')
    /\ episodes db' = import_episodes_skipping dates_data colors_data (episodes db).

(** The reading of a header row as names only: the records are those of
    the rows after it. *)
Definition header_only_names (fs : gmap string (list (list string)))
  (filename : string) : Prop :=
  forall header rest,
    fs !! filename = Some (header :: rest) ->
    CSVReader.read_file fs filename None = Ok (records_of header rest).

(** The schema said to come out of the initializer: five base tables and
    two join tables. *)
Definition five_base_two_join (schema : list Schema.table_def) : Prop :=
  length (List.filter Schema.is_base_table schema) = 5%nat
  /\ length (List.filter Schema.is_join_table schema) = 2%nat.

(** The database after a phase has added [new] rows to the colors. *)
Definition with_new_colors (db : database) (new : list color_row) : database :=
  Database (episodes db)
           (MkTable (rows (colors db) ++ new)
                    (auto_increment (colors db) + Z.of_nat (length new)))
           (subject_matters db)
           (episode_colors db) (episode_subject_matters db).

(** The Color a color row stands for. *)
Definition color_of_row (row : gmap string string) (c : color_row) : Prop :=
  row !! "colors" = Some (color_name c)
  /\ row !! "color_hex" = Some (color_hex c).

(** The generated keys of a table are sound: no key is used twice and
    every key is below the next AUTO_INCREMENT value. *)
Definition fresh_ids {R : Type} (id : R -> Z) (t : table R) : Prop :=
  NoDup (map id (rows t))
  /\ Forall (fun r => id r < auto_increment t) (rows t).

Definition primary_keys_ok (db : database) : Prop :=
  fresh_ids episode_id (episodes db)
  /\ fresh_ids color_id (colors db)
  /\ fresh_ids subject_matter_id (subject_matters db).

(** The flat object the API gives for a stored Episode, on a store that
    hands out air dates by [date_column]. *)
Definition episode_object (date_column : string -> App.value) (e : episode_row)
  : gmap string App.json_value :=
  App.to_json <$> Py.dict (zip App.description (App.row_tuple date_column e)).

(** The error object of the API, as JSON. *)
Definition error_json (message : string) : gmap string App.json_value :=
  App.to_json <$> App.error_object message.

(** A dates record with its title trimmed in place. *)
Definition trim_title (date : gmap string string) : gmap string string :=
  match date !! "Title" with
  | Some t => <["Title" := Py.strip t]> date
  | None => date
  end.

(** The string has the character. *)
Fixpoint has_char (c : ascii) (s : string) : bool :=
  match s with
  | EmptyString => false
  | String a r => Ascii.eqb a c || has_char c r
  end.

(** What one run of the statements appends: each added definition is one of
    the statements, for a name that was free, with foreign keys that point
    at key columns of tables of the final schema. *)
Definition added_by (qs schema schema' : list Schema.table_def)
  (d : Schema.table_def) : Prop :=
  In d qs
  /\ Schema.find_table schema (Schema.table_name d) = None
  /\ forall fk, In fk (Schema.foreign_keys d) ->
       Schema.has_column d (Schema.fk_column fk) = true
       /\ exists parent,
            Schema.find_table schema' (Schema.fk_table fk) = Some parent
            /\ Schema.has_key parent (Schema.fk_references fk) = true.

(** Both numeric fields of a color row are there and [int] accepts them. *)
Definition numeric_row (row : gmap string string) : bool :=
  int_field row "season" && int_field row "episode".

(** The second database has every row of the first, in place: each table
    of the first is an initial part of the same table of the second. *)
Definition extends (db db' : database) : Prop :=
  rows (episodes db) `prefix_of` rows (episodes db')
  /\ rows (colors db) `prefix_of` rows (colors db')
  /\ rows (subject_matters db) `prefix_of` rows (subject_matters db').

(** A phase that keeps the stored rows in place and the generated keys
    sound. *)
Definition sound_phase (p : DataImporter.phase) : Prop :=
  forall db,
    extends db (p db).2
    /\ (primary_keys_ok db -> primary_keys_ok (p db).2).

(** A phase that leaves both association tables as they are. *)
Definition keeps_associations (p : DataImporter.phase) : Prop :=
  forall db,
    episode_colors (p db).2 = episode_colors db
    /\ episode_subject_matters (p db).2 = episode_subject_matters db.

(** ** Sample data *)

Module Sample.

Definition mountain_brown : list string :=
  ["Mountain Grandeur"; "1"; "1"; "img1"; "yt1"; "Van Dyke Brown"; "#5C4033"].

Definition mountain_white : list string :=
  ["Mountain Grandeur"; "1"; "1"; "img1"; "yt1"; "Titanium White"; "#FFFFFF"].

Definition bad_season : list string :=
  ["Winter Mist"; "one"; "2"; "img2"; "yt2"; "Prussian Blue"; "#021E44"].

Definition padded_title : list string :=
  [" Mountain Grandeur"; "1"; "1"; "img1"; "yt1"; "Sap Green"; "#0A3410"].

Definition dates_rows : list (list string) :=
  [["Mountain Grandeur "; "1983-01-11"]; ["Mountain Grandeur"; "1999-09-09"]].

Definition dates_with_header : list (list string) :=
  [["Title"; "Date"]; ["Mountain Grandeur"; "1983-01-11"]].

Definition subject_rows : list (list string) :=
  [["tree;lake"]; ["lake; tree"]; ["too"; "many"]].

Definition data_dir : gmap string (list (list string)) :=
  Py.dict [ (DataImporter.colors_file, [mountain_brown; mountain_white]);
            (DataImporter.subject_matter_file, subject_rows);
            (DataImporter.dates_file, dates_rows) ].

Definition colors_data : list (gmap string string) :=
  records_of DataImporter.colors_columns [mountain_brown; mountain_white].

Definition dates_data : list (gmap string string) :=
  records_of ["Title"; "Date"] dates_rows.

Definition subject_matters_data : list (gmap string string) :=
  records_of ["EPISODE"] subject_rows.

(** A schema that has an [episodes] table of another shape and no [colors]
    table. *)
Definition legacy_schema : list Schema.table_def :=
  [ Schema.Table "episodes" [Schema.Column "id" Schema.INT true] [];
    Schema.Table "episode_colors" [] [];
    Schema.Table "subject_matters" [] [];
    Schema.Table "episode_subject_matters" [] [] ].

Definition colors_table : Schema.table_def :=
  Schema.Table "colors"
    [ Schema.Column "color_id" Schema.INT true;
      Schema.Column "color_name" (Schema.VARCHAR 255) false;
      Schema.Column "color_hex" (Schema.VARCHAR 255) false ] [].

(** A store that keeps the dates written as year-month-day and hands them
    out as dates, and has no date for any other text. *)
Definition iso_date (text : string) : App.value :=
  match map Py.parse_int (Py.split "-" text) with
  | [Some y; Some m; Some d] => App.VDate (App.Date y m d)
  | _ => App.VNone
  end.

Definition two_episodes : database :=
  with_new_episodes empty_database
    [ Episode 1 "Mountain Grandeur" 1 1 "img1" "yt1" (Some "1983-01-11");
      Episode 2 "Mountain Grandeur" 1 1 "img1" "yt1" None ].

End Sample.

(** * Properties *)

(** ** Evaluation on samples *)

Example strip_sample : Py.strip "  Mountain Grandeur	 " = "Mountain Grandeur".
Proof. reflexivity. Qed.

Example split_sample :
  Py.split ";" "tree; tree;;lake" = ["tree"; " tree"; ""; "lake"].
Proof. reflexivity. Qed.

Example int_sample_padded : Py.int " +1_000 " = Ok 1000.
Proof. reflexivity. Qed.

Example int_sample_doubled_underscore : Py.int "1__0" = Raise (ValueError "1__0").
Proof. reflexivity. Qed.

Example int_sample_word : Py.int "season" = Raise (ValueError "season").
Proof. reflexivity. Qed.

Example int_sample_negative : Py.int "-12" = Ok (-12).
Proof. reflexivity. Qed.

(** ** The result monad *)

Lemma bind_ok {E A B : Type} (m : result E A) (k : A -> result E B) (b : B) :
  bind m k = Ok b -> exists a, m = Ok a /\ k a = Ok b.
Proof. destruct m as [a|e]; simpl; [eauto | discriminate]. Qed.

(** ** Dictionaries *)

Section Dict.
Context {V : Type}.

Local Abbreviation step := (fun (m : gmap string V) (kv : string * V) => <[kv.1 := kv.2]> m).

Lemma fold_insert_absent (l : list (string * V)) (m : gmap string V) (k : string) :
  k ∉ l.*1 -> fold_left step l m !! k = m !! k.
Proof.
  revert m. induction l as [|[k' v'] l IH]; intros m Hk; simpl in *; [done|].
  apply not_elem_of_cons in Hk as [Hne Hk].
  rewrite IH by done. by rewrite lookup_insert_ne.
Qed.

Lemma fold_insert_keeps (l : list (string * V)) (m : gmap string V) (k : string) :
  is_Some (m !! k) -> is_Some (fold_left step l m !! k).
Proof.
  revert m. induction l as [|[k' v'] l IH]; intros m Hk; simpl; [done|].
  apply IH. destruct (decide (k' = k)) as [->|Hne].
  - rewrite lookup_insert_eq. eauto.
  - by rewrite lookup_insert_ne.
Qed.

Lemma fold_insert_present (l : list (string * V)) (m : gmap string V) (k : string) :
  k ∈ l.*1 -> is_Some (fold_left step l m !! k).
Proof.
  revert m. induction l as [|[k' v'] l IH]; intros m Hk; simpl in *.
  - by apply elem_of_nil in Hk.
  - apply elem_of_cons in Hk as [->|Hk].
    + apply fold_insert_keeps. rewrite lookup_insert_eq. eauto.
    + by apply IH.
Qed.

(** In [dict(zip(columns, row))] a name answers with the field under its
    last occurrence among the columns. *)
Lemma fold_zip_lookup (columns : list string) (row : list V)
  (m : gmap string V) (i : nat) (k : string) (v : V) :
  columns !! i = Some k -> row !! i = Some v -> k ∉ drop (S i) columns ->
  fold_left step (zip columns row) m !! k = Some v.
Proof.
  revert row m i. induction columns as [|c cs IH]; intros row m i Hc Hr Hlast.
  - by rewrite lookup_nil in Hc.
  - destruct row as [|r rs]; [by rewrite lookup_nil in Hr|].
    destruct i as [|i]; simpl in *.
    + injection Hc as ->. injection Hr as ->.
      rewrite fold_insert_absent.
      * by rewrite lookup_insert_eq.
      * rewrite drop_0 in Hlast. intros Hin. apply Hlast.
        apply list_elem_of_fmap in Hin as [[k' v'] [-> Hin]].
        by apply elem_of_zip_l in Hin.
    + by apply (IH rs _ i).
Qed.

Lemma dict_zip_lookup (columns : list string) (row : list V)
  (i : nat) (k : string) (v : V) :
  columns !! i = Some k -> row !! i = Some v -> k ∉ drop (S i) columns ->
  Py.dict (zip columns row) !! k = Some v.
Proof. apply fold_zip_lookup. Qed.

Lemma dict_zip_has_key (columns : list string) (row : list V) (k : string) :
  length columns = length row -> k ∈ columns ->
  is_Some (Py.dict (zip columns row) !! k).
Proof.
  intros Hlen Hk. apply fold_insert_present.
  rewrite fst_zip; [done | lia].
Qed.

End Dict.

(** ** The CSV loader *)

Lemma read_rows_records (columns : list string) (reader : list (list string))
  (data : list (gmap string string)) :
  CSVReader.read_rows columns reader data = data ++ records_of columns reader.
Proof.
  revert data. induction reader as [|row rest IH]; intros data; simpl.
  - by rewrite app_nil_r.
  - unfold records_of in *. simpl.
    destruct (length row =? length columns)%nat; simpl; rewrite IH; [|done].
    by rewrite <- app_assoc.
Qed.

Lemma records_of_app (columns : list string) (a b : list (list string)) :
  records_of columns (a ++ b) = records_of columns a ++ records_of columns b.
Proof. unfold records_of. by rewrite List.filter_app, map_app. Qed.

Lemma read_file_columns (fs : gmap string (list (list string)))
  (filename : string) (columns : list string) (file : list (list string)) :
  fs !! filename = Some file ->
  CSVReader.read_file fs filename (Some columns) = Ok (records_of columns file).
Proof.
  intros Hf. unfold CSVReader.read_file, CSVReader.open_reader.
  rewrite Hf. simpl. by rewrite read_rows_records.
Qed.

Lemma records_of_have_keys (columns : list string) (file : list (list string)) :
  Forall (fun d => forall k, k ∈ columns -> is_Some (d !! k))
         (records_of columns file).
Proof.
  unfold records_of. apply Forall_forall. intros d Hd k Hk.
  apply list_elem_of_In, in_map_iff in Hd as [row [<- Hrow]].
  apply filter_In in Hrow as [_ Hlen]. apply Nat.eqb_eq in Hlen.
  by apply dict_zip_has_key.
Qed.

Lemma records_of_has_keys (columns : list string) (file : list (list string)) :
  forallb (has_keys columns) (records_of columns file) = true.
Proof.
  apply forallb_forall. intros d Hd. unfold has_keys.
  apply forallb_forall. intros k Hk. apply bool_decide_eq_true.
  pose proof (records_of_have_keys columns file) as Hall.
  rewrite Forall_forall in Hall.
  apply Hall; by apply list_elem_of_In.
Qed.

(** C7: with an explicit column list, a row whose field count is not the
    number of columns is passed over: the read returns normally, and what it
    returns is what the file without that row gives, the records of the rows
    before it followed by those of the rows after it. *)
Theorem read_file_skips_mismatched_row
  (fs : gmap string (list (list string))) (filename : string)
  (columns : list string) (before after : list (list string))
  (row : list string) :
  fs !! filename = Some (before ++ row :: after) ->
  length row <> length columns ->
  exists data,
    CSVReader.read_file fs filename (Some columns) = Ok data
    /\ CSVReader.read_file (<[filename := before ++ after]> fs) filename
         (Some columns) = Ok data
    /\ data = records_of columns before ++ records_of columns after.
Proof.
  intros Hf Hlen. exists (records_of columns before ++ records_of columns after).
  split; [|split; [|done]].
  - rewrite (read_file_columns _ _ _ _ Hf), records_of_app. f_equal. f_equal.
    unfold records_of. simpl.
    by apply Nat.eqb_neq in Hlen as ->.
  - rewrite (read_file_columns _ _ _ (before ++ after)).
    + by rewrite records_of_app.
    + by rewrite lookup_insert_eq.
Qed.

Lemma read_file_skips_mismatched_row_witness :
  exists data,
    CSVReader.read_file Sample.data_dir DataImporter.subject_matter_file
      (Some ["EPISODE"]) = Ok data
    /\ CSVReader.read_file
         (<[DataImporter.subject_matter_file := [["tree;lake"]; ["lake; tree"]] ++ []]>
            Sample.data_dir)
         DataImporter.subject_matter_file (Some ["EPISODE"]) = Ok data
    /\ data = records_of ["EPISODE"] [["tree;lake"]; ["lake; tree"]]
              ++ records_of ["EPISODE"] [].
Proof.
  apply (read_file_skips_mismatched_row Sample.data_dir
           DataImporter.subject_matter_file ["EPISODE"]
           [["tree;lake"]; ["lake; tree"]] [] ["too"; "many"]).
  - vm_compute. reflexivity.
  - simpl. lia.
Defined.

(** C5, as stated, fails: read without a column list, a file of a header
    and one data row gives two records, the first one made of the header
    row itself. *)
Lemma header_row_is_a_record :
  ~ header_only_names
      (Py.dict [("dates.csv", Sample.dates_with_header)]) "dates.csv".
Proof.
  intros H.
  specialize (H ["Title"; "Date"] [["Mountain Grandeur"; "1983-01-11"]]
                ltac:(vm_compute; reflexivity)).
  vm_compute in H. discriminate H.
Qed.

(** C5, amended: without a column list the first row of the file gives the
    field names, the file is then read again from its start, and the output
    has the record of the header row itself (each name under its own name)
    followed by the records of the later rows that have as many fields as
    the header; in each record a name answers with the field of the row in
    the column of that name (the last such column, if a name is repeated). *)
Theorem read_file_header_row_included
  (fs : gmap string (list (list string))) (filename : string)
  (header : list string) (rest : list (list string)) :
  fs !! filename = Some (header :: rest) ->
  CSVReader.read_file fs filename None
    = Ok (Py.dict (zip header header) :: records_of header rest)
  /\ Forall2
       (fun row d =>
          forall i k v, header !! i = Some k -> row !! i = Some v ->
                        k ∉ drop (S i) header -> d !! k = Some v)
       (List.filter (fun row => (length row =? length header)%nat) (header :: rest))
       (Py.dict (zip header header) :: records_of header rest).
Proof.
  intros Hf. split.
  - unfold CSVReader.read_file, CSVReader.open_reader. rewrite Hf. simpl.
    rewrite Nat.eqb_refl. by rewrite read_rows_records.
  - simpl. rewrite Nat.eqb_refl. constructor.
    + intros i k v. apply dict_zip_lookup.
    + unfold records_of.
      induction (List.filter (fun row => (length row =? length header)%nat) rest)
        as [|row l IH]; simpl; constructor; [|done].
      intros i k v. apply dict_zip_lookup.
Qed.

Lemma read_file_header_row_included_witness :
  CSVReader.read_file (Py.dict [("dates.csv", Sample.dates_with_header)])
    "dates.csv" None
    = Ok (Py.dict (zip ["Title"; "Date"] ["Title"; "Date"])
            :: records_of ["Title"; "Date"] [["Mountain Grandeur"; "1983-01-11"]])
  /\ Forall2
       (fun row d =>
          forall i k v, ["Title"; "Date"] !! i = Some k -> row !! i = Some v ->
                        k ∉ drop (S i) ["Title"; "Date"] -> d !! k = Some v)
       (List.filter (fun row => (length row =? length ["Title"; "Date"])%nat)
          (["Title"; "Date"] :: [["Mountain Grandeur"; "1983-01-11"]]))
       (Py.dict (zip ["Title"; "Date"] ["Title"; "Date"])
          :: records_of ["Title"; "Date"] [["Mountain Grandeur"; "1983-01-11"]]).
Proof.
  apply (read_file_header_row_included
           (Py.dict [("dates.csv", Sample.dates_with_header)]) "dates.csv"
           ["Title"; "Date"] [["Mountain Grandeur"; "1983-01-11"]]).
  vm_compute. reflexivity.
Defined.

(** An empty file read without a column list: [next] has no row to give. *)
Lemma read_file_header_of_empty_file
  (fs : gmap string (list (list string))) (filename : string) :
  fs !! filename = Some [] ->
  CSVReader.read_file fs filename None = Raise StopIteration.
Proof.
  intros Hf. unfold CSVReader.read_file, CSVReader.open_reader. by rewrite Hf.
Qed.

(** ** Trimming *)

Lemma lstrip_chars_head (s r : list ascii) (c : ascii) :
  Py.lstrip_chars s = c :: r -> Py.isspace c = false.
Proof.
  induction s as [|a s IH]; simpl; [discriminate|].
  destruct (Py.isspace a) eqn:Ha; [exact IH|].
  intros [= <- _]. exact Ha.
Qed.

Lemma lstrip_chars_snoc (s : list ascii) (c : ascii) :
  Py.isspace c = false -> exists r, Py.lstrip_chars (s ++ [c]) = r ++ [c].
Proof.
  intros Hc. induction s as [|a s IH]; simpl.
  - rewrite Hc. by exists [].
  - destruct (Py.isspace a); [exact IH|]. by exists (a :: s).
Qed.

Lemma rstrip_chars_last (s r : list ascii) (c : ascii) :
  Py.rstrip_chars s = r ++ [c] -> Py.isspace c = false.
Proof.
  unfold Py.rstrip_chars. intros H.
  apply (f_equal (@rev ascii)) in H.
  rewrite rev_involutive, rev_unit in H.
  by apply lstrip_chars_head in H.
Qed.

Lemma rstrip_chars_head (s : list ascii) (c : ascii) :
  Py.isspace c = false -> exists r, Py.rstrip_chars (c :: s) = c :: r.
Proof.
  intros Hc. unfold Py.rstrip_chars. simpl.
  destruct (lstrip_chars_snoc (rev s) c Hc) as [r ->].
  exists (rev r). by rewrite rev_unit.
Qed.

(** What [strip] returns neither begins nor ends with whitespace. *)
Lemma strip_no_outer_space (x : string) : outer_space (Py.strip x) = false.
Proof.
  unfold outer_space, Py.strip. rewrite list_ascii_of_string_of_list_ascii.
  destruct (Py.rstrip_chars (Py.lstrip_chars (list_ascii_of_string x)))
    as [|c r] eqn:Hs; [done|].
  apply orb_false_iff. split.
  - destruct (Py.lstrip_chars (list_ascii_of_string x)) as [|c0 y] eqn:Hl.
    + discriminate Hs.
    + pose proof (lstrip_chars_head _ _ _ Hl) as Hc0.
      destruct (rstrip_chars_head y c0 Hc0) as [r' Hr'].
      rewrite Hr' in Hs. by injection Hs as <- _.
  - assert (Hne : c :: r <> []) by discriminate.
    pose proof (app_removelast_last c Hne) as Hlast.
    rewrite Hlast in Hs. by apply rstrip_chars_last in Hs.
Qed.

Lemma strip_differs_from_padded (x t : string) :
  outer_space t = true -> Py.strip x <> t.
Proof.
  intros Ht Heq. rewrite <- Heq, strip_no_outer_space in Ht. discriminate.
Qed.

(** ** The air-date lookup *)

Lemma has_keys_lookup (keys : list string) (d : gmap string string) (k : string) :
  has_keys keys d = true -> In k keys -> exists v, d !! k = Some v.
Proof.
  unfold has_keys. rewrite forallb_forall. intros Hall Hk.
  apply Hall, bool_decide_eq_true in Hk. exact Hk.
Qed.

Ltac key_of H k v Hv :=
  destruct (has_keys_lookup _ _ k H ltac:(simpl; tauto)) as [v Hv].

Lemma next_date_total (dates_data : list (gmap string string)) (t : string) :
  forallb (has_keys ["Title"; "Date"]) dates_data = true ->
  exists o, DataImporter.next_date dates_data t = Ok o.
Proof.
  induction dates_data as [|date rest IH]; simpl; intros Hk; [eauto|].
  apply andb_true_iff in Hk as [Hd Hrest].
  key_of Hd "Title" dt Hdt. key_of Hd "Date" dd Hdd.
  unfold Py.getitem. rewrite Hdt, Hdd. simpl.
  destruct (String.eqb _ t); eauto.
Qed.

(** The first record whose trimmed title is [t] gives the date. *)
Lemma next_date_first_match (before after : list (gmap string string))
  (date : gmap string string) (t dt d : string) :
  Forall (fun r => forall rt, r !! "Title" = Some rt -> Py.strip rt <> t) before ->
  forallb (has_keys ["Title"; "Date"]) before = true ->
  date !! "Title" = Some dt -> Py.strip dt = t -> date !! "Date" = Some d ->
  DataImporter.next_date (before ++ date :: after) t = Ok (Some d).
Proof.
  intros Hno Hk Hdt Hs Hd. induction before as [|r before IH]; simpl.
  - unfold Py.getitem. rewrite Hdt. simpl.
    apply String.eqb_eq in Hs as ->. by rewrite Hd.
  - simpl in Hk. apply andb_true_iff in Hk as [Hr Hk].
    key_of Hr "Title" rt Hrt.
    apply Forall_cons in Hno as [Hr0 Hno]. specialize (Hr0 _ Hrt).
    unfold Py.getitem at 1. rewrite Hrt. simpl.
    apply String.eqb_neq in Hr0 as ->. by apply IH.
Qed.

(** With no record whose trimmed title is [t] there is no date. *)
Lemma next_date_no_match (dates_data : list (gmap string string)) (t : string) :
  Forall (fun r => forall rt, r !! "Title" = Some rt -> Py.strip rt <> t) dates_data ->
  forallb (has_keys ["Title"; "Date"]) dates_data = true ->
  DataImporter.next_date dates_data t = Ok None.
Proof.
  intros Hno Hk. induction dates_data as [|r rest IH]; simpl; [done|].
  simpl in Hk. apply andb_true_iff in Hk as [Hr Hk].
  key_of Hr "Title" rt Hrt.
  apply Forall_cons in Hno as [Hr0 Hno]. specialize (Hr0 _ Hrt).
  unfold Py.getitem at 1. rewrite Hrt. simpl.
  apply String.eqb_neq in Hr0 as ->. by apply IH.
Qed.

Lemma next_date_padded_title (dates_data : list (gmap string string)) (t : string) :
  outer_space t = true ->
  forallb (has_keys ["Title"; "Date"]) dates_data = true ->
  DataImporter.next_date dates_data t = Ok None.
Proof.
  intros Ht. apply next_date_no_match, Forall_forall.
  intros r _ rt _. by apply strip_differs_from_padded.
Qed.

(** ** The episode import *)

Lemma int_field_ok (row : gmap string string) (key : string) :
  int_field row key = true ->
  exists s z, row !! key = Some s /\ Py.int s = Ok z.
Proof.
  unfold int_field. destruct (row !! key) as [s|]; [|discriminate].
  destruct (Py.int s) as [z|e] eqn:Hz; [|discriminate]. eauto.
Qed.

Lemma import_episode_valid (dates_data : list (gmap string string))
  (row : gmap string string) (cursor : table episode_row) :
  valid_color_row row = true ->
  forallb (has_keys ["Title"; "Date"]) dates_data = true ->
  exists e,
    DataImporter.import_episode dates_data row cursor
      = Ok (MkTable (rows cursor ++ [e]) (auto_increment cursor + 1))
    /\ episode_of_row dates_data row e
    /\ episode_id e = auto_increment cursor.
Proof.
  intros Hv Hd. unfold valid_color_row in Hv.
  apply andb_true_iff in Hv as [Hv He]. apply andb_true_iff in Hv as [Hk Hs].
  apply int_field_ok in Hs as (s & season & Hs & Hsi).
  apply int_field_ok in He as (p & episode & Hp & Hpi).
  unfold episode_keys in Hk.
  key_of Hk "painting_title" t Ht.
  key_of Hk "img_src" img Himg.
  key_of Hk "youtube_src" yt Hyt.
  destruct (next_date_total dates_data t Hd) as [o Ho].
  exists (Episode (auto_increment cursor) t season episode img yt o).
  unfold DataImporter.import_episode, Py.getitem.
  rewrite Ht, Hs, Hp, Himg, Hyt. simpl. rewrite Hsi. simpl. rewrite Hpi. simpl.
  rewrite Ho. simpl.
  split; [reflexivity|]. split; [|reflexivity].
  unfold episode_of_row; simpl. eauto 10.
Qed.

Lemma import_episodes_loop_valid (dates_data colors_data : list (gmap string string))
  (cursor : table episode_row) :
  forallb valid_color_row colors_data = true ->
  forallb (has_keys ["Title"; "Date"]) dates_data = true ->
  exists new,
    DataImporter.import_episodes_loop dates_data colors_data cursor
      = Ok (MkTable (rows cursor ++ new)
                    (auto_increment cursor + Z.of_nat (length new)))
    /\ Forall2 (episode_of_row dates_data) colors_data new
    /\ forall i e, new !! i = Some e ->
                   episode_id e = auto_increment cursor + Z.of_nat i.
Proof.
  intros Hv Hd. revert cursor.
  induction colors_data as [|row rest IH]; intros cursor; simpl.
  - exists []. destruct cursor as [rs ai]. simpl.
    rewrite app_nil_r, Z.add_0_r. repeat split; [constructor|].
    intros i e Hi. by rewrite lookup_nil in Hi.
  - simpl in Hv. apply andb_true_iff in Hv as [Hrow Hrest].
    destruct (import_episode_valid dates_data row cursor Hrow Hd)
      as (e & -> & He & Hid).
    simpl. destruct (IH Hrest (MkTable (rows cursor ++ [e]) (auto_increment cursor + 1)))
      as (new & -> & Hall & Hids).
    exists (e :: new). simpl. split; [|split].
    + f_equal. f_equal; [by rewrite <- app_assoc | lia].
    + by constructor.
    + intros [|i] e' Hi; simpl in Hi.
      * injection Hi as <-. lia.
      * rewrite (Hids i e' Hi). simpl. lia.
Qed.

Lemma import_episodes_valid (colors_data dates_data : list (gmap string string))
  (db : database) :
  forallb valid_color_row colors_data = true ->
  forallb (has_keys ["Title"; "Date"]) dates_data = true ->
  exists new,
    DataImporter._import_episodes colors_data dates_data db
      = (Ok (), with_new_episodes db new)
    /\ Forall2 (episode_of_row dates_data) colors_data new
    /\ forall i e, new !! i = Some e ->
                   episode_id e = auto_increment (episodes db) + Z.of_nat i.
Proof.
  intros Hv Hd.
  destruct (import_episodes_loop_valid dates_data colors_data (episodes db) Hv Hd)
    as (new & Hrun & Hall & Hids).
  exists new. unfold DataImporter._import_episodes. rewrite Hrun. done.
Qed.

Lemma int_deterministic (s : string) (a b : Z) :
  Py.int s = Ok a -> Py.int s = Ok b -> a = b.
Proof. congruence. Qed.

(** C1: when every color row carries the episode fields with numeric
    season and episode, the episode import commits and adds one Episode per
    color row, in row order: as many new rows as there are color rows, the
    k-th with the title, season, episode, image and video of the k-th color
    row and with a generated id of its own; two rows for the same episode
    give two Episodes with the same title, season and episode. *)
Theorem one_episode_per_color_row
  (colors_data dates_data : list (gmap string string)) (db : database) :
  forallb valid_color_row colors_data = true ->
  forallb (has_keys ["Title"; "Date"]) dates_data = true ->
  exists new,
    DataImporter._import_episodes colors_data dates_data db
      = (Ok (), with_new_episodes db new)
    /\ length new = length colors_data
    /\ length (rows (episodes (with_new_episodes db new)))
       = (length (rows (episodes db)) + length colors_data)%nat
    /\ Forall2 (episode_of_row dates_data) colors_data new
    /\ (forall i e, new !! i = Some e ->
                    episode_id e = auto_increment (episodes db) + Z.of_nat i)
    /\ (forall i j ri rj ei ej,
          colors_data !! i = Some ri -> colors_data !! j = Some rj ->
          new !! i = Some ei -> new !! j = Some ej ->
          ri !! "painting_title" = rj !! "painting_title" ->
          ri !! "season" = rj !! "season" ->
          ri !! "episode" = rj !! "episode" ->
          title ei = title ej /\ season_number ei = season_number ej
          /\ episode_number ei = episode_number ej).
Proof.
  intros Hv Hd.
  destruct (import_episodes_valid colors_data dates_data db Hv Hd)
    as (new & Hrun & Hall & Hids).
  exists new. pose proof (Forall2_length _ _ _ Hall) as Hlen.
  repeat split; try done.
  - simpl. rewrite length_app. lia.
  - pose proof (Forall2_lookup_lr _ _ _ _ _ _ Hall H H1) as (Ht & _).
    pose proof (Forall2_lookup_lr _ _ _ _ _ _ Hall H0 H2) as (Ht' & _).
    congruence.
  - pose proof (Forall2_lookup_lr _ _ _ _ _ _ Hall H H1) as (_ & (s & Hs & Hi) & _).
    pose proof (Forall2_lookup_lr _ _ _ _ _ _ Hall H0 H2) as (_ & (s' & Hs' & Hi') & _).
    assert (s = s') as <- by congruence. by eapply int_deterministic.
  - pose proof (Forall2_lookup_lr _ _ _ _ _ _ Hall H H1) as (_ & _ & (s & Hs & Hi) & _).
    pose proof (Forall2_lookup_lr _ _ _ _ _ _ Hall H0 H2) as (_ & _ & (s' & Hs' & Hi') & _).
    assert (s = s') as <- by congruence. by eapply int_deterministic.
Qed.

Lemma one_episode_per_color_row_witness :
  exists new,
    DataImporter._import_episodes Sample.colors_data Sample.dates_data empty_database
      = (Ok (), with_new_episodes empty_database new)
    /\ length new = 2%nat.
Proof.
  destruct (one_episode_per_color_row Sample.colors_data Sample.dates_data
              empty_database)
    as (new & Hrun & Hlen & _).
  - vm_compute. reflexivity.
  - vm_compute. reflexivity.
  - exists new. split; [exact Hrun | exact Hlen].
Defined.

(** C2: the episode import adds one Episode per color row, and the air
    date of the Episode of a color row is looked up by comparing the row's
    title with the trimmed title of each dates record, in file order: the
    first record whose trimmed title is the row's title gives the air date,
    and with no such record the air date is null; the import commits in both
    cases. *)
Theorem air_date_of_first_trimmed_match
  (colors_data dates_data : list (gmap string string)) (db : database) :
  forallb valid_color_row colors_data = true ->
  forallb (has_keys ["Title"; "Date"]) dates_data = true ->
  exists new,
    DataImporter._import_episodes colors_data dates_data db
      = (Ok (), with_new_episodes db new)
    /\ length new = length colors_data
    /\ forall i row,
         colors_data !! i = Some row ->
         exists e,
           new !! i = Some e
           /\ row !! "painting_title" = Some (title e)
           /\ (forall before date after dt d,
                 dates_data = before ++ date :: after ->
                 Forall (fun r => forall rt, r !! "Title" = Some rt ->
                                             Py.strip rt <> title e) before ->
                 date !! "Title" = Some dt -> Py.strip dt = title e ->
                 date !! "Date" = Some d ->
                 air_date e = Some d)
           /\ (Forall (fun r => forall rt, r !! "Title" = Some rt ->
                                           Py.strip rt <> title e) dates_data ->
               air_date e = None).
Proof.
  intros Hv Hd.
  destruct (import_episodes_valid colors_data dates_data db Hv Hd)
    as (new & Hrun & Hall & _).
  exists new. split; [exact Hrun|].
  split; [symmetry; by eapply Forall2_length|].
  intros i row Hrow.
  destruct (Forall2_lookup_l _ _ _ _ _ Hall Hrow)
    as (e & He & Ht & _ & _ & _ & _ & Hdate).
  exists e. split; [exact He|]. split; [exact Ht|]. split.
  - intros before date after dt d -> Hno Hdt Hs Hdd.
    rewrite forallb_app in Hd. apply andb_true_iff in Hd as [Hb _].
    rewrite (next_date_first_match before after date (title e) dt d) in Hdate
      by assumption.
    congruence.
  - intros Hno. rewrite (next_date_no_match dates_data (title e)) in Hdate
      by assumption.
    congruence.
Qed.

Lemma air_date_of_first_trimmed_match_witness :
  exists new,
    DataImporter._import_episodes Sample.colors_data Sample.dates_data empty_database
      = (Ok (), with_new_episodes empty_database new)
    /\ length new = 2%nat
    /\ exists e, new !! 0%nat = Some e /\ air_date e = Some "1983-01-11".
Proof.
  destruct (air_date_of_first_trimmed_match Sample.colors_data Sample.dates_data
              empty_database)
    as (new & Hrun & Hlen & Hdates).
  - vm_compute. reflexivity.
  - vm_compute. reflexivity.
  - exists new. split; [exact Hrun|]. split; [exact Hlen|].
    destruct (Hdates 0%nat
                (Py.dict (zip DataImporter.colors_columns Sample.mountain_brown))
                eq_refl) as (e & He & Ht & Hfirst & _).
    exists e. split; [exact He|].
    assert (Hte : title e = "Mountain Grandeur").
    { assert (Hlk : Py.dict (zip DataImporter.colors_columns Sample.mountain_brown)
                      !! "painting_title" = Some "Mountain Grandeur")
        by (vm_compute; reflexivity).
      rewrite Hlk in Ht. by injection Ht as <-. }
    apply (Hfirst []
             (Py.dict (zip ["Title"; "Date"] ["Mountain Grandeur "; "1983-01-11"]))
             [Py.dict (zip ["Title"; "Date"] ["Mountain Grandeur"; "1999-09-09"])]
             "Mountain Grandeur " "1983-01-11").
    + reflexivity.
    + constructor.
    + vm_compute. reflexivity.
    + rewrite Hte. reflexivity.
    + vm_compute. reflexivity.
Defined.

(** C10: only the title of the dates record is trimmed, the title of the
    color row is compared as it is; so every color row whose title begins or
    ends with whitespace gets its Episode, with that title, but no dates
    record matches it, whatever the record's title, and the air date of
    that Episode is null. *)
Theorem padded_title_has_no_air_date
  (colors_data dates_data : list (gmap string string)) (db : database) :
  forallb valid_color_row colors_data = true ->
  forallb (has_keys ["Title"; "Date"]) dates_data = true ->
  exists new,
    DataImporter._import_episodes colors_data dates_data db
      = (Ok (), with_new_episodes db new)
    /\ length new = length colors_data
    /\ forall i row t,
         colors_data !! i = Some row ->
         row !! "painting_title" = Some t -> outer_space t = true ->
         (forall date dt, date ∈ dates_data -> date !! "Title" = Some dt ->
                          Py.strip dt <> t)
         /\ exists e, new !! i = Some e /\ title e = t /\ air_date e = None.
Proof.
  intros Hv Hd.
  destruct (import_episodes_valid colors_data dates_data db Hv Hd)
    as (new & Hrun & Hall & _).
  exists new. split; [exact Hrun|].
  split; [symmetry; by eapply Forall2_length|].
  intros i row t Hrow Ht Hpad. split.
  - intros date dt _ _. by apply strip_differs_from_padded.
  - destruct (Forall2_lookup_l _ _ _ _ _ Hall Hrow)
      as (e & He & Ht' & _ & _ & _ & _ & Hdate).
    assert (title e = t) as Hte by congruence.
    exists e. split; [exact He|]. split; [exact Hte|].
    rewrite Hte, (next_date_padded_title dates_data t Hpad Hd) in Hdate.
    congruence.
Qed.

Lemma padded_title_has_no_air_date_witness :
  Py.strip " Mountain Grandeur" = Py.strip "Mountain Grandeur "
  /\ exists new,
       DataImporter._import_episodes
         (records_of DataImporter.colors_columns [Sample.padded_title])
         Sample.dates_data empty_database
       = (Ok (), with_new_episodes empty_database new)
       /\ length new = 1%nat
       /\ exists e, new !! 0%nat = Some e
                    /\ title e = " Mountain Grandeur" /\ air_date e = None.
Proof.
  split; [reflexivity|].
  destruct (padded_title_has_no_air_date
              (records_of DataImporter.colors_columns [Sample.padded_title])
              Sample.dates_data empty_database)
    as (new & Hrun & Hlen & Hnull).
  - vm_compute. reflexivity.
  - vm_compute. reflexivity.
  - exists new. split; [exact Hrun|]. split; [exact Hlen|].
    destruct (Hnull 0%nat
                (Py.dict (zip DataImporter.colors_columns Sample.padded_title))
                " Mountain Grandeur" eq_refl) as (_ & Hrow).
    + vm_compute. reflexivity.
    + reflexivity.
    + exact Hrow.
Defined.

Lemma import_episodes_loop_app (dates_data a b : list (gmap string string))
  (cursor : table episode_row) :
  DataImporter.import_episodes_loop dates_data (a ++ b) cursor
  = let* cursor' := DataImporter.import_episodes_loop dates_data a cursor in
    DataImporter.import_episodes_loop dates_data b cursor'.
Proof.
  revert cursor. induction a as [|row a IH]; intros cursor; simpl; [done|].
  destruct (DataImporter.import_episode dates_data row cursor); simpl; [apply IH|done].
Qed.

Lemma import_episode_malformed (dates_data : list (gmap string string))
  (row : gmap string string) (cursor : table episode_row) (t s p : string) :
  row !! "painting_title" = Some t ->
  row !! "season" = Some s -> row !! "episode" = Some p ->
  Py.parse_int s = None \/ Py.parse_int p = None ->
  DataImporter.import_episode dates_data row cursor
  = Raise (ValueError (match Py.parse_int s with Some _ => p | None => s end)).
Proof.
  intros Ht Hs Hp Hbad. unfold DataImporter.import_episode, Py.getitem, Py.int.
  rewrite Ht, Hs. simpl.
  destruct (Py.parse_int s) as [z|]; simpl; [|done].
  rewrite Hp. simpl. destruct Hbad as [Hbad|Hbad]; [discriminate|].
  by rewrite Hbad.
Qed.

(** C4, as stated, fails: with a first row whose season is not a number and
    a well-formed second row, the import does not commit the Episode of the
    second row; it raises. *)
Lemma malformed_row_is_not_skipped :
  ~ skips_malformed_rows
      (records_of DataImporter.colors_columns
         [Sample.bad_season; Sample.mountain_brown])
      Sample.dates_data empty_database.
Proof.
  intros (db' & Hrun & _). vm_compute in Hrun. discriminate Hrun.
Qed.

(** C4, amended: at the first color row whose season or episode field is
    not a valid integer the episode import raises [ValueError] for that
    field; the rows after it are not processed, nothing of the phase is
    committed (the Episodes of the rows before it included), and the error
    ends the run. *)
Theorem malformed_row_aborts_episode_import
  (before after dates_data : list (gmap string string))
  (row : gmap string string) (db : database) (t s p : string) :
  forallb valid_color_row before = true ->
  forallb (has_keys ["Title"; "Date"]) dates_data = true ->
  row !! "painting_title" = Some t ->
  row !! "season" = Some s -> row !! "episode" = Some p ->
  Py.parse_int s = None \/ Py.parse_int p = None ->
  DataImporter._import_episodes (before ++ row :: after) dates_data db
  = (Raise (ValueError (match Py.parse_int s with Some _ => p | None => s end)), db).
Proof.
  intros Hv Hd Ht Hs Hp Hbad. unfold DataImporter._import_episodes.
  rewrite import_episodes_loop_app.
  destruct (import_episodes_loop_valid dates_data before (episodes db) Hv Hd)
    as (new & -> & _).
  simpl. by rewrite (import_episode_malformed _ _ _ t s p).
Qed.

Lemma malformed_row_aborts_episode_import_witness :
  DataImporter._import_episodes
    (records_of DataImporter.colors_columns [Sample.mountain_white]
     ++ Py.dict (zip DataImporter.colors_columns Sample.bad_season)
     :: records_of DataImporter.colors_columns [Sample.mountain_brown])
    Sample.dates_data empty_database
  = (Raise (ValueError "one"), empty_database).
Proof.
  apply (malformed_row_aborts_episode_import
           (records_of DataImporter.colors_columns [Sample.mountain_white])
           (records_of DataImporter.colors_columns [Sample.mountain_brown])
           Sample.dates_data
           (Py.dict (zip DataImporter.colors_columns Sample.bad_season))
           empty_database "Winter Mist" "one" "2").
  - vm_compute. reflexivity.
  - vm_compute. reflexivity.
  - vm_compute. reflexivity.
  - vm_compute. reflexivity.
  - vm_compute. reflexivity.
  - left. vm_compute. reflexivity.
Defined.

(** ** The subject-matter import *)

Lemma count_of_unique_name {A : Type} (name : A -> string) (l : list A) (x : string) :
  NoDup (map name l) -> x ∈ map name l ->
  length (List.filter (fun r => String.eqb (name r) x) l) = 1%nat.
Proof.
  induction l as [|a l IH]; simpl; intros Hnd Hin.
  - by apply elem_of_nil in Hin.
  - apply NoDup_cons in Hnd as [Ha Hnd].
    destruct (String.eqb_spec (name a) x) as [<-|Hne]; simpl.
    + f_equal. apply length_zero_iff_nil.
      destruct (List.filter _ l) as [|b k] eqn:Hf; [done|].
      assert (Hb : In b (List.filter (fun r => String.eqb (name r) (name a)) l))
        by (rewrite Hf; left; reflexivity).
      apply filter_In in Hb as [Hbl Hbn]. apply String.eqb_eq in Hbn.
      exfalso. apply Ha. rewrite <- Hbn.
      apply list_elem_of_In, in_map, Hbl.
    + apply IH; [done|]. apply elem_of_cons in Hin as [Heq|Hin]; [congruence|done].
Qed.

Lemma collect_subjects_tokens (data : list (gmap string string)) (acc : gset string) :
  forallb (has_keys ["EPISODE"]) data = true ->
  exists tags,
    DataImporter.collect_subjects data acc = Ok tags
    /\ forall t, t ∈ tags <->
                 t ∈ acc \/ exists row field, row ∈ data
                                              /\ row !! "EPISODE" = Some field
                                              /\ t ∈ Py.split ";" field.
Proof.
  revert acc. induction data as [|row rest IH]; intros acc Hk; simpl.
  - exists acc. split; [done|]. intros t. split; [by left|].
    intros [Ht|(row & field & Hrow & _)]; [done|]. by apply elem_of_nil in Hrow.
  - simpl in Hk. apply andb_true_iff in Hk as [Hrow Hrest].
    key_of Hrow "EPISODE" field Hfield.
    unfold Py.getitem. rewrite Hfield. simpl.
    destruct (IH (acc ∪ list_to_set (Py.split ";" field)) Hrest) as (tags & -> & Htags).
    exists tags. split; [done|]. intros t. rewrite Htags, elem_of_union, elem_of_list_to_set.
    split.
    + intros [[Ht|Ht]|(r & f & Hr & Hf & Ht)].
      * by left.
      * right. exists row, field. split; [left|done].
      * right. exists r, f. split; [by right|done].
    + intros [Ht|(r & f & Hr & Hf & Ht)]; [by left; left|].
      apply elem_of_cons in Hr as [->|Hr].
      * left. right. congruence.
      * right. by exists r, f.
Qed.

Lemma insert_subjects_rows (subjects : list string) (cursor : table subject_matter_row) :
  exists new,
    DataImporter.insert_subjects subjects cursor
    = MkTable (rows cursor ++ new) (auto_increment cursor + Z.of_nat (length new))
    /\ map subject_matter_name new = subjects.
Proof.
  revert cursor. induction subjects as [|s rest IH]; intros cursor.
  - exists []. destruct cursor; simpl. by rewrite app_nil_r, Z.add_0_r.
  - unfold DataImporter.insert_subjects in *. simpl.
    destruct (IH (insert (fun id => SubjectMatter id s) cursor)) as (new & -> & Hn).
    exists (SubjectMatter (auto_increment cursor) s :: new). simpl.
    split; [|by rewrite Hn].
    f_equal; [by rewrite <- app_assoc | lia].
Qed.

(** C6: the subject-matter import splits the [EPISODE] field of every row
    on [;], gathers the tokens in a set as they are (no trimming: two
    tokens are the same tag only when they are the same string), and adds
    one SubjectMatter row per element of the set: the names added are
    exactly the tokens of the rows, each once; so in a table that was empty
    before, every token is the name of exactly one row. *)
Theorem one_subject_matter_per_distinct_token
  (subject_matters_data : list (gmap string string)) (db : database) :
  forallb (has_keys ["EPISODE"]) subject_matters_data = true ->
  exists new,
    DataImporter._import_subject_matters subject_matters_data db
      = (Ok (), with_new_subject_matters db new)
    /\ NoDup (map subject_matter_name new)
    /\ (forall t, t ∈ map subject_matter_name new <->
                  exists row field, row ∈ subject_matters_data
                                    /\ row !! "EPISODE" = Some field
                                    /\ t ∈ Py.split ";" field)
    /\ (rows (subject_matters db) = [] ->
        forall row field t,
          row ∈ subject_matters_data -> row !! "EPISODE" = Some field ->
          t ∈ Py.split ";" field ->
          length (List.filter
                    (fun r => String.eqb (subject_matter_name r) t)
                    (rows (subject_matters (with_new_subject_matters db new))))
          = 1%nat).
Proof.
  intros Hk.
  destruct (collect_subjects_tokens subject_matters_data ∅ Hk) as (tags & Hc & Htags).
  destruct (insert_subjects_rows (elements tags) (subject_matters db))
    as (new & Hins & Hnames).
  exists new. unfold DataImporter._import_subject_matters. rewrite Hc, Hins.
  assert (Hmem : forall t, t ∈ map subject_matter_name new <->
            exists row field, row ∈ subject_matters_data
                              /\ row !! "EPISODE" = Some field
                              /\ t ∈ Py.split ";" field).
  { intros t. rewrite Hnames, elem_of_elements, Htags. split.
    - intros [Ht|Ht]; [by apply not_elem_of_empty in Ht|done].
    - intros Ht. by right. }
  assert (Hnd : NoDup (map subject_matter_name new)).
  { rewrite Hnames. apply NoDup_elements. }
  split; [done|]. split; [done|]. split; [done|].
  intros Hempty row field t Hrow Hfield Ht. simpl. rewrite Hempty. simpl.
  apply count_of_unique_name; [done|]. apply Hmem. by exists row, field.
Qed.

Lemma one_subject_matter_per_distinct_token_witness :
  exists new,
    DataImporter._import_subject_matters Sample.subject_matters_data empty_database
      = (Ok (), with_new_subject_matters empty_database new)
    /\ length
         (List.filter (fun r => String.eqb (subject_matter_name r) " tree")
            (rows (subject_matters (with_new_subject_matters empty_database new))))
       = 1%nat.
Proof.
  destruct (one_subject_matter_per_distinct_token Sample.subject_matters_data
              empty_database)
    as (new & Hrun & _ & _ & Hone).
  - vm_compute. reflexivity.
  - exists new. split; [exact Hrun|].
    apply (Hone eq_refl (Py.dict (zip ["EPISODE"] ["lake; tree"])) "lake; tree").
    + vm_compute. right. left.
    + vm_compute. reflexivity.
    + vm_compute. right. left.
Defined.

(** Tokens that differ in whitespace only are two tags. *)
Example whitespace_variants_are_two_tags :
  map subject_matter_name
    (rows (subject_matters
       (DataImporter._import_subject_matters Sample.subject_matters_data
          empty_database).2))
  ≡ₚ ["tree"; "lake"; " tree"].
Proof. vm_compute. by rewrite (Permutation_swap "lake" "tree"). Qed.

(** ** The association phases *)

Lemma and_then_keeps_associations (p q : DataImporter.phase) :
  keeps_associations p -> keeps_associations q ->
  keeps_associations (DataImporter.and_then p q).
Proof.
  intros Hp Hq db. unfold DataImporter.and_then.
  destruct (Hp db) as [Hc Hs]. destruct (p db) as [[[]|e] db']; simpl in *.
  - destruct (Hq db') as [Hc' Hs']. split; congruence.
  - done.
Qed.

Lemma and_then_raises (p q : DataImporter.phase) :
  (forall db, exists e, (q db).1 = Raise e) ->
  forall db, exists e, (DataImporter.and_then p q db).1 = Raise e.
Proof.
  intros Hq db. unfold DataImporter.and_then.
  destruct (p db) as [[[]|e] db']; simpl; [apply Hq|by exists e].
Qed.

Lemma call_method_keeps_associations (name : string) (d : DataImporter.datasets) :
  keeps_associations (DataImporter.call_method name d).
Proof.
  intros db. unfold DataImporter.call_method.
  destruct (DataImporter.lookup_method name DataImporter.methods) as [m|] eqn:Hm;
    [|done].
  unfold DataImporter.methods in Hm. simpl in Hm.
  repeat match type of Hm with
         | (if ?b then _ else _) = _ => destruct b; [injection Hm as <-|]
         end; try discriminate.
  - unfold DataImporter._import_episodes.
    by destruct (DataImporter.import_episodes_loop _ _ _).
  - unfold DataImporter._import_colors.
    by destruct (DataImporter.color_names_hex _).
  - unfold DataImporter._import_subject_matters.
    by destruct (DataImporter.collect_subjects _ _).
Qed.

(** C3, on the code: [import_data] calls [_import_episode_colors] and
    [_import_episode_subject_matters], which [DataImporter] does not
    define; so no run of [import_data] ends normally, and both association
    tables are after the run what they were before it. *)
Theorem association_tables_are_never_populated
  (data_dir : gmap string (list (list string))) (db : database) :
  (exists e, (DataImporter.import_data data_dir db).1 = Raise e)
  /\ episode_colors (DataImporter.import_data data_dir db).2 = episode_colors db
  /\ episode_subject_matters (DataImporter.import_data data_dir db).2
     = episode_subject_matters db.
Proof.
  unfold DataImporter.import_data.
  destruct (DataImporter.read_datasets data_dir) as [d|e]; [|by eauto].
  split.
  - repeat apply and_then_raises. intros db'. by eexists.
  - apply (and_then_keeps_associations _ _ (call_method_keeps_associations _ d)).
    repeat (apply and_then_keeps_associations;
            [apply call_method_keeps_associations|]).
    apply call_method_keeps_associations.
Qed.

(** The run on the two-color episode of the sample directory: Episodes,
    Colors and SubjectMatters are committed, the run then stops on the
    missing method, and there is no link between them. *)
Example import_data_sample :
  let run := DataImporter.import_data Sample.data_dir empty_database in
  run.1 = Raise (AttributeError "_import_episode_colors")
  /\ map episode_id (rows (episodes run.2)) = [1; 2]
  /\ map color_id (rows (colors run.2)) = [1; 2]
  /\ length (rows (subject_matters run.2)) = 3%nat
  /\ episode_colors run.2 = []
  /\ episode_subject_matters run.2 = [].
Proof. vm_compute. repeat split. Qed.

(** The end-to-end scenario: two color rows of one episode give two
    Episodes with the same title, season, episode and air date, and two
    Colors. *)
Example end_to_end_scenario :
  let db := (DataImporter.import_data
               (<[DataImporter.dates_file := [["Mountain Grandeur"; "1983-01-11"]]]>
                  Sample.data_dir) empty_database).2 in
  rows (episodes db)
  = [ Episode 1 "Mountain Grandeur" 1 1 "img1" "yt1" (Some "1983-01-11");
      Episode 2 "Mountain Grandeur" 1 1 "img1" "yt1" (Some "1983-01-11") ]
  /\ rows (colors db)
     = [ Color 1 "Van Dyke Brown" "#5C4033"; Color 2 "Titanium White" "#FFFFFF" ].
Proof. vm_compute. split; reflexivity. Qed.

(** ** The schema initializer *)

Section SchemaFacts.
Import Schema.

Lemma find_table_name (schema : list table_def) (name : string) (d : table_def) :
  find_table schema name = Some d -> table_name d = name /\ In d schema.
Proof.
  unfold find_table. intros H. apply find_some in H as [Hin Heq].
  by apply String.eqb_eq in Heq.
Qed.

Lemma find_table_none (schema : list table_def) (name : string) :
  find_table schema name = None -> name ∉ map table_name schema.
Proof.
  unfold find_table. intros H Hin.
  apply list_elem_of_In, in_map_iff in Hin as [d [Hd Hin]].
  pose proof (find_none _ _ H d Hin) as Hne. simpl in Hne.
  apply String.eqb_neq in Hne. done.
Qed.

Lemma find_table_app (schema more : list table_def) (name : string) :
  is_Some (find_table schema name) -> is_Some (find_table (schema ++ more) name).
Proof.
  unfold find_table. induction schema as [|d schema IH]; simpl.
  - intros [x Hx]. discriminate.
  - destruct (String.eqb (table_name d) name); eauto.
Qed.

Lemma find_table_last (schema : list table_def) (d : table_def) :
  is_Some (find_table (schema ++ [d]) (table_name d)).
Proof.
  unfold find_table. induction schema as [|a schema IH]; simpl.
  - rewrite String.eqb_refl. eauto.
  - destruct (String.eqb (table_name a) (table_name d)); eauto.
Qed.

Lemma create_table_keeps (schema schema' : list table_def) (q : table_def)
  (name : string) :
  create_table_if_not_exists schema q = Ok schema' ->
  is_Some (find_table schema name) -> is_Some (find_table schema' name).
Proof.
  unfold create_table_if_not_exists.
  destruct (find_table schema (table_name q)); [by intros [= <-]|].
  destruct (List.find _ (foreign_keys q)); [discriminate|].
  intros [= <-]. apply find_table_app.
Qed.

Lemma create_table_defines (schema schema' : list table_def) (q : table_def) :
  create_table_if_not_exists schema q = Ok schema' ->
  is_Some (find_table schema' (table_name q)).
Proof.
  unfold create_table_if_not_exists.
  destruct (find_table schema (table_name q)) eqn:Hf; [intros [= <-]; rewrite Hf; eauto|].
  destruct (List.find _ (foreign_keys q)); [discriminate|].
  intros [= <-]. apply find_table_last.
Qed.

Lemma create_table_unique_names (schema schema' : list table_def) (q : table_def) :
  create_table_if_not_exists schema q = Ok schema' ->
  NoDup (map table_name schema) -> NoDup (map table_name schema').
Proof.
  unfold create_table_if_not_exists.
  destruct (find_table schema (table_name q)) eqn:Hf; [by intros [= <-]|].
  destruct (List.find _ (foreign_keys q)); [discriminate|].
  intros [= <-] Hnd. rewrite map_app. simpl.
  apply NoDup_app. split; [done|]. split.
  - intros x Hx Hq. apply list_elem_of_singleton in Hq as ->.
    by apply find_table_none in Hf.
  - apply NoDup_singleton.
Qed.

Lemma execute_all_defines (qs schema schema' : list table_def) :
  execute_all qs schema = Ok schema' ->
  (forall name, is_Some (find_table schema name) -> is_Some (find_table schema' name))
  /\ (forall q, In q qs -> is_Some (find_table schema' (table_name q)))
  /\ (NoDup (map table_name schema) -> NoDup (map table_name schema')).
Proof.
  revert schema. induction qs as [|q qs IH]; intros schema; simpl.
  - intros [= <-]. repeat split; [done| |done]. intros q [].
  - intros H. apply bind_ok in H as (s1 & Hc & Hrest).
    destruct (IH _ Hrest) as (Hkeep & Hdef & Hnd). repeat split.
    + intros name Hn. eapply Hkeep, create_table_keeps; eauto.
    + intros q' [<-|Hq']; [|by apply Hdef].
      eapply Hkeep, create_table_defines; eauto.
    + intros H0. eapply Hnd, create_table_unique_names; eauto.
Qed.

Lemma execute_all_defined (qs schema : list table_def) :
  (forall q, In q qs -> is_Some (find_table schema (table_name q))) ->
  execute_all qs schema = Ok schema.
Proof.
  induction qs as [|q qs IH]; simpl; intros Hall; [done|].
  unfold create_table_if_not_exists.
  destruct (Hall q ltac:(by left)) as [d ->]. simpl.
  apply IH. intros q' Hq'. apply Hall. by right.
Qed.

Lemma setup_tables_again (schema schema' : list table_def) :
  setup_tables schema = Ok schema' -> setup_tables schema' = Ok schema'.
Proof.
  unfold setup_tables. intros H.
  apply execute_all_defines in H as (_ & Hdef & _).
  by apply execute_all_defined.
Qed.

Lemma setup_tables_times_fixed (schema : list table_def) (n : nat) :
  setup_tables schema = Ok schema -> setup_tables_times n schema = Ok schema.
Proof.
  intros H. induction n as [|n IH]; simpl; [done|]. rewrite H. simpl. exact IH.
Qed.

End SchemaFacts.

(** C8, as stated, fails: the initializer does not leave five base tables
    and two join tables; run on an empty schema it defines five tables in
    all. *)
Lemma setup_tables_not_five_base_tables :
  ~ exists schema',
      Schema.setup_tables [] = Ok schema' /\ five_base_two_join schema'.
Proof.
  intros (schema' & Hrun & Hbase & _).
  vm_compute in Hrun. injection Hrun as <-.
  vm_compute in Hbase. discriminate Hbase.
Qed.

(** C8, amended: the initializer is idempotent.  On an empty schema it
    succeeds and defines three base tables (episodes, colors,
    subject_matters) and two join tables (episode_colors,
    episode_subject_matters); after any successful invocation, invoking it
    again any number of times raises no error and changes nothing, and the
    schema has exactly one definition of each of these five tables. *)
Theorem setup_tables_idempotent (schema schema' : list Schema.table_def) :
  NoDup (map Schema.table_name schema) ->
  Schema.setup_tables schema = Ok schema' ->
  (forall n, Schema.setup_tables_times n schema' = Ok schema')
  /\ (forall q, q ∈ Schema.queries ->
                length (Schema.definitions_of schema' (Schema.table_name q)) = 1%nat)
  /\ (forall n, Schema.setup_tables_times (S n) [] = Ok Schema.queries)
  /\ length (List.filter Schema.is_base_table Schema.queries) = 3%nat
  /\ length (List.filter Schema.is_join_table Schema.queries) = 2%nat
  /\ length Schema.queries = 5%nat.
Proof.
  intros Hnd Hrun. split; [|split; [|split]].
  - intros n. by apply setup_tables_times_fixed, setup_tables_again with schema.
  - intros q Hq. unfold Schema.setup_tables in Hrun.
    apply execute_all_defines in Hrun as (_ & Hdef & Hnd').
    destruct (Hdef q ltac:(by apply list_elem_of_In)) as [d Hd].
    apply find_table_name in Hd as [Hname Hin].
    apply count_of_unique_name; [by apply Hnd'|].
    rewrite <- Hname. by apply list_elem_of_In, in_map.
  - intros n. cbn [Schema.setup_tables_times].
    assert (H0 : Schema.setup_tables [] = Ok Schema.queries) by (vm_compute; reflexivity).
    rewrite H0. cbn [bind].
    by apply setup_tables_times_fixed, setup_tables_again with [].
  - vm_compute. repeat split.
Qed.

Lemma setup_tables_idempotent_witness :
  Schema.setup_tables_times 3 Schema.queries = Ok Schema.queries
  /\ length (Schema.definitions_of Schema.queries "episode_colors") = 1%nat.
Proof.
  destruct (setup_tables_idempotent [] Schema.queries) as (Hn & Hone & _).
  - constructor.
  - vm_compute. reflexivity.
  - split; [apply Hn|].
    apply (Hone (Schema.Table "episode_colors"
                   [ Schema.Column "episode_id" Schema.INT false;
                     Schema.Column "color_id" Schema.INT false ]
                   [ Schema.ForeignKey "episode_id" "episodes" "episode_id";
                     Schema.ForeignKey "color_id" "colors" "color_id" ])).
    vm_compute. right. right. left.
Defined.

(** The order of the statements matters for the foreign keys: a join table
    declared before its parents is refused. *)
Example join_table_needs_its_parents :
  is_ok (Schema.execute_all (rev Schema.queries) []) = false.
Proof. reflexivity. Qed.

(** ** The episode endpoint *)

Lemma filter_id_absent (l : list episode_row) (id : Z) :
  (forall e, e ∈ l -> episode_id e <> id) ->
  List.filter (fun e => episode_id e =? id) l = [].
Proof.
  induction l as [|a l IH]; simpl; intros Hno; [done|].
  destruct (Z.eqb_spec (episode_id a) id) as [Heq|_].
  - exfalso. apply (Hno a); [left|done].
  - apply IH. intros e He. apply Hno. by right.
Qed.

Lemma filter_id_unique (l : list episode_row) (e : episode_row) :
  NoDup (map episode_id l) -> e ∈ l ->
  List.filter (fun x => episode_id x =? episode_id e) l = [e].
Proof.
  induction l as [|a l IH]; simpl; intros Hnd He.
  - by apply elem_of_nil in He.
  - apply NoDup_cons in Hnd as [Ha Hnd].
    apply elem_of_cons in He as [->|He].
    + rewrite Z.eqb_refl. f_equal. apply filter_id_absent.
      intros x Hx Heq. apply Ha. rewrite <- Heq.
      by apply list_elem_of_fmap_2.
    + destruct (Z.eqb_spec (episode_id a) (episode_id e)) as [Heq|_]; [|by apply IH].
      exfalso. apply Ha. rewrite Heq. by apply list_elem_of_fmap_2.
Qed.

Lemma error_object_json (message : string) :
  App.to_json <$> App.error_object message
  = Py.dict [("error", App.JString message)].
Proof. reflexivity. Qed.

Lemma row_object_json (date_column : string -> App.value) (e : episode_row) :
  App.to_json <$> Py.dict (zip App.description (App.row_tuple date_column e))
  = Py.dict [ ("episode_id", App.JNumber (episode_id e));
              ("title", App.JString (title e));
              ("season_number", App.JNumber (season_number e));
              ("episode_number", App.JNumber (episode_number e));
              ("painting_img_src", App.JString (painting_img_src e));
              ("painting_yt_src", App.JString (painting_yt_src e));
              ("air_date", match air_date e with
                           | Some d => App.to_json (date_column d)
                           | None => App.JNull
                           end) ].
Proof. unfold App.row_tuple. destruct (air_date e); reflexivity. Qed.

(** C9: for every id the route passes on, [GET /api/episodes/id] answers
    200 with the stored Episode of that id as a flat object of its seven
    columns when there is one (the air date as [jsonify] writes what the
    cursor hands out for it: the HTTP date of a date, null for NULL), 404
    with [{error: Episode not found}] when there is none, and 500 with
    [{error: message}] when connecting or querying raises, [message] being
    the text of the error. *)
Theorem get_episode_responses (s : App.storage) (id : N) :
  (forall e,
      App.connect_error s = None -> App.execute_error s = None ->
      NoDup (map episode_id (rows (episodes (App.stored s)))) ->
      e ∈ rows (episodes (App.stored s)) -> episode_id e = Z.of_N id ->
      App.get_episode s id
      = App.Response 200
          (Py.dict [ ("episode_id", App.JNumber (episode_id e));
                     ("title", App.JString (title e));
                     ("season_number", App.JNumber (season_number e));
                     ("episode_number", App.JNumber (episode_number e));
                     ("painting_img_src", App.JString (painting_img_src e));
                     ("painting_yt_src", App.JString (painting_yt_src e));
                     ("air_date", match air_date e with
                                  | Some d => App.to_json (App.date_column s d)
                                  | None => App.JNull
                                  end) ]))
  /\ (App.connect_error s = None -> App.execute_error s = None ->
      (forall e, e ∈ rows (episodes (App.stored s)) ->
                 episode_id e <> Z.of_N id) ->
      App.get_episode s id
      = App.Response 404 (Py.dict [("error", App.JString "Episode not found")]))
  /\ (forall err,
        App.connect_error s = Some err
        \/ (App.connect_error s = None /\ App.execute_error s = Some err) ->
        App.get_episode s id
        = App.Response 500 (Py.dict [("error", App.JString (str err))])).
Proof.
  split; [|split].
  - intros e Hc Hx Hnd He Hid.
    unfold App.get_episode, App.get_db_connection, App.execute_select_by_id.
    rewrite Hc, Hx. cbn [bind]. rewrite <- Hid, (filter_id_unique _ e Hnd He).
    simpl. unfold App.jsonify. f_equal. apply row_object_json.
  - intros Hc Hx Hno.
    unfold App.get_episode, App.get_db_connection, App.execute_select_by_id.
    rewrite Hc, Hx. cbn [bind]. by rewrite (filter_id_absent _ _ Hno).
  - intros err [Hc|[Hc Hx]];
      unfold App.get_episode, App.get_db_connection, App.execute_select_by_id.
    + by rewrite Hc.
    + by rewrite Hc, Hx.
Qed.

Lemma get_episode_responses_witness :
  App.get_episode (App.Storage None None Sample.two_episodes Sample.iso_date) 1
    = App.Response 200
        (Py.dict [ ("episode_id", App.JNumber 1);
                   ("title", App.JString "Mountain Grandeur");
                   ("season_number", App.JNumber 1);
                   ("episode_number", App.JNumber 1);
                   ("painting_img_src", App.JString "img1");
                   ("painting_yt_src", App.JString "yt1");
                   ("air_date", App.JString "Tue, 11 Jan 1983 00:00:00 GMT") ])
  /\ App.body
       (App.get_episode (App.Storage None None Sample.two_episodes Sample.iso_date) 2)
       !! "air_date" = Some App.JNull
  /\ App.get_episode
       (App.Storage None None Sample.two_episodes Sample.iso_date) 999999
     = App.Response 404 (Py.dict [("error", App.JString "Episode not found")])
  /\ App.get_episode
       (App.Storage None (Some (MySQLError "gone away")) Sample.two_episodes
          Sample.iso_date) 2
     = App.Response 500 (Py.dict [("error", App.JString "gone away")]).
Proof.
  destruct (get_episode_responses
              (App.Storage None None Sample.two_episodes Sample.iso_date) 1)
    as (Hfirst & _ & _).
  destruct (get_episode_responses
              (App.Storage None None Sample.two_episodes Sample.iso_date) 2)
    as (Hsecond & _ & _).
  destruct (get_episode_responses
              (App.Storage None None Sample.two_episodes Sample.iso_date) 999999)
    as (_ & Hnone & _).
  destruct (get_episode_responses
              (App.Storage None (Some (MySQLError "gone away")) Sample.two_episodes
                 Sample.iso_date) 2)
    as (_ & _ & Hfail).
  split; [|split; [|split]].
  - apply (Hfirst (Episode 1 "Mountain Grandeur" 1 1 "img1" "yt1"
                     (Some "1983-01-11"))).
    + reflexivity.
    + reflexivity.
    + apply (bool_decide_unpack _). vm_compute. reflexivity.
    + vm_compute. left.
    + reflexivity.
  - rewrite (Hsecond (Episode 2 "Mountain Grandeur" 1 1 "img1" "yt1" None)).
    + vm_compute. reflexivity.
    + reflexivity.
    + reflexivity.
    + apply (bool_decide_unpack _). vm_compute. reflexivity.
    + vm_compute. right. left.
    + reflexivity.
  - apply Hnone; [reflexivity|reflexivity|].
    intros e He. vm_compute in He.
    repeat (apply elem_of_cons in He as [->|He]; [simpl; lia|]).
    by apply elem_of_nil in He.
  - apply (Hfail (MySQLError "gone away")). right. split; reflexivity.
Defined.

(** * Further properties of the loader, the importer and the endpoints *)

(** ** Records of the loader *)

Lemma fold_insert_dom {V : Type} (l : list (string * V)) (m : gmap string V) :
  dom (fold_left (fun (m : gmap string V) kv => <[kv.1 := kv.2]> m) l m)
  = dom m ∪ list_to_set l.*1.
Proof.
  revert m. induction l as [|[k v] l IH]; intros m; simpl.
  - by rewrite (right_id_L ∅ (∪)).
  - rewrite IH, dom_insert_L, (comm_L (∪) {[k]} (dom m)).
    by rewrite (assoc_L (∪)).
Qed.

Lemma dict_zip_dom {V : Type} (columns : list string) (row : list V) :
  length columns = length row ->
  dom (Py.dict (zip columns row)) = list_to_set columns.
Proof.
  intros Hlen. unfold Py.dict. rewrite fold_insert_dom, fst_zip by lia.
  by rewrite dom_empty_L, (left_id_L ∅ (∪)).
Qed.

Lemma NoDup_not_in_drop (columns : list string) (i : nat) (k : string) :
  NoDup columns -> columns !! i = Some k -> k ∉ drop (S i) columns.
Proof.
  intros Hnd Hi Hin. apply list_elem_of_lookup in Hin as [j Hj].
  rewrite lookup_drop in Hj.
  pose proof (NoDup_lookup _ _ _ _ Hnd Hi Hj). lia.
Qed.

Lemma dict_zip_round_trip (columns row : list string) :
  NoDup columns -> length row = length columns ->
  map (fun k => Py.dict (zip columns row) !! k) columns = map Some row.
Proof.
  intros Hnd Hlen. apply list_eq. intros i.
  rewrite !list_lookup_fmap.
  destruct (columns !! i) as [k|] eqn:Hk; simpl.
  - destruct (row !! i) as [v|] eqn:Hv; simpl.
    + f_equal. apply (dict_zip_lookup columns row i k v); [done|done|].
      by apply NoDup_not_in_drop.
    + apply lookup_ge_None in Hv. apply lookup_lt_Some in Hk. lia.
  - apply lookup_ge_None in Hk.
    rewrite (proj2 (lookup_ge_None row i)) by lia. done.
Qed.

(** With an explicit column list every record of the output has exactly the
    column names as its keys, repeated names counting once, and there are
    at most as many records as the file has rows. *)
Theorem read_file_records_have_the_columns_as_keys
  (fs : gmap string (list (list string))) (filename : string)
  (columns : list string) (file : list (list string)) :
  fs !! filename = Some file ->
  exists data,
    CSVReader.read_file fs filename (Some columns) = Ok data
    /\ (length data <= length file)%nat
    /\ Forall (fun d : gmap string string => dom d = list_to_set columns) data.
Proof.
  intros Hf. exists (records_of columns file).
  split; [by apply read_file_columns|]. unfold records_of. split.
  - rewrite length_map. apply List.filter_length_le.
  - apply Forall_forall. intros d Hd.
    apply list_elem_of_In, in_map_iff in Hd as [row [<- Hrow]].
    apply filter_In in Hrow as [_ Hlen]. apply Nat.eqb_eq in Hlen.
    by apply dict_zip_dom.
Qed.

Lemma read_file_records_have_the_columns_as_keys_witness :
  exists data,
    CSVReader.read_file Sample.data_dir DataImporter.dates_file
      (Some ["Title"; "Date"]) = Ok data
    /\ (length data <= 2)%nat
    /\ Forall (fun d : gmap string string => dom d = list_to_set ["Title"; "Date"])
              data.
Proof.
  apply (read_file_records_have_the_columns_as_keys Sample.data_dir
           DataImporter.dates_file ["Title"; "Date"] Sample.dates_rows).
  vm_compute. reflexivity.
Defined.

(** With distinct column names the rows can be read back from the records:
    looking the columns up in each record, in order, gives the fields of the
    rows that have the right number of fields, in file order. *)
Theorem read_file_round_trip
  (fs : gmap string (list (list string))) (filename : string)
  (columns : list string) (file : list (list string)) :
  NoDup columns ->
  fs !! filename = Some file ->
  exists data,
    CSVReader.read_file fs filename (Some columns) = Ok data
    /\ map (fun d : gmap string string => map (fun k => d !! k) columns) data
       = map (map Some)
           (List.filter (fun row => (length row =? length columns)%nat) file).
Proof.
  intros Hnd Hf. exists (records_of columns file).
  split; [by apply read_file_columns|]. unfold records_of.
  rewrite map_map. apply map_ext_in. intros row Hrow.
  apply filter_In in Hrow as [_ Hlen]. apply Nat.eqb_eq in Hlen.
  by apply dict_zip_round_trip.
Qed.

Lemma read_file_round_trip_witness :
  exists data,
    CSVReader.read_file Sample.data_dir DataImporter.subject_matter_file
      (Some ["EPISODE"]) = Ok data
    /\ map (fun d : gmap string string => map (fun k => d !! k) ["EPISODE"]) data
       = [[Some "tree;lake"]; [Some "lake; tree"]].
Proof.
  destruct (read_file_round_trip Sample.data_dir DataImporter.subject_matter_file
              ["EPISODE"] Sample.subject_rows)
    as (data & Hrun & Hback).
  - apply (bool_decide_unpack _). vm_compute. reflexivity.
  - vm_compute. reflexivity.
  - exists data. split; [exact Hrun|]. rewrite Hback. reflexivity.
Defined.

(** Reading without a column list is reading with the first row of the file
    as the column list: the two calls give the same result, and that result
    is never empty, since the header row is a record of its own. *)
Theorem read_file_header_is_explicit_columns
  (fs : gmap string (list (list string))) (filename : string)
  (header : list string) (rest : list (list string)) :
  fs !! filename = Some (header :: rest) ->
  CSVReader.read_file fs filename None
  = CSVReader.read_file fs filename (Some header)
  /\ exists first others,
       CSVReader.read_file fs filename None = Ok (first :: others).
Proof.
  intros Hf. unfold CSVReader.read_file, CSVReader.open_reader.
  rewrite Hf. simpl. split; [done|].
  rewrite Nat.eqb_refl, read_rows_records. simpl. eauto.
Qed.

Lemma read_file_header_is_explicit_columns_witness :
  CSVReader.read_file (Py.dict [("dates.csv", Sample.dates_with_header)])
    "dates.csv" None
  = CSVReader.read_file (Py.dict [("dates.csv", Sample.dates_with_header)])
      "dates.csv" (Some ["Title"; "Date"]).
Proof.
  apply (read_file_header_is_explicit_columns
           (Py.dict [("dates.csv", Sample.dates_with_header)]) "dates.csv"
           ["Title"; "Date"] [["Mountain Grandeur"; "1983-01-11"]]).
  vm_compute. reflexivity.
Defined.

(** ** What the initializer adds *)

Section SchemaAppends.
Import Schema.

Lemma find_table_app_some (schema more : list table_def) (name : string)
  (d : table_def) :
  find_table schema name = Some d -> find_table (schema ++ more) name = Some d.
Proof.
  unfold find_table. induction schema as [|a schema IH]; simpl; [discriminate|].
  destruct (String.eqb (table_name a) name); [done|exact IH].
Qed.

Lemma find_table_app_none (schema more : list table_def) (name : string) :
  find_table (schema ++ more) name = None -> find_table schema name = None.
Proof.
  unfold find_table. induction schema as [|a schema IH]; simpl; [done|].
  destruct (String.eqb (table_name a) name); [discriminate|exact IH].
Qed.

Lemma foreign_keys_accepted (schema : list table_def) (d : table_def) :
  List.find (fun fk => negb (foreign_key_ok schema d fk)) (foreign_keys d) = None ->
  forall fk, In fk (foreign_keys d) ->
    has_column d (fk_column fk) = true
    /\ exists parent, find_table schema (fk_table fk) = Some parent
                      /\ has_key parent (fk_references fk) = true.
Proof.
  intros Hnone fk Hfk. pose proof (find_none _ _ Hnone fk Hfk) as Hok.
  simpl in Hok. apply negb_false_iff in Hok. unfold foreign_key_ok in Hok.
  apply andb_true_iff in Hok as [Hcol Hparent]. split; [done|].
  destruct (find_table schema (fk_table fk)) as [parent|]; [|discriminate].
  by exists parent.
Qed.

Lemma execute_all_appends (qs schema schema' : list table_def) :
  execute_all qs schema = Ok schema' ->
  exists added, schema' = schema ++ added /\ Forall (added_by qs schema schema') added.
Proof.
  revert schema. induction qs as [|q qs IH]; intros schema; simpl.
  - intros [= <-]. exists []. by rewrite app_nil_r.
  - intros H. apply bind_ok in H as (s1 & Hc & Hrest).
    destruct (IH _ Hrest) as (added & -> & Hadded).
    unfold create_table_if_not_exists in Hc.
    destruct (find_table schema (table_name q)) eqn:Hq.
    + injection Hc as <-. exists added. split; [done|].
      eapply Forall_impl; [exact Hadded|].
      intros d (Hin & Hfree & Hfk). split; [by right|done].
    + destruct (List.find _ (foreign_keys q)) eqn:Hfks; [discriminate|].
      injection Hc as <-. exists (q :: added). rewrite <- app_assoc in *. simpl in *.
      split; [done|]. constructor.
      * split; [by left|]. split; [done|]. intros fk Hfk.
        destruct (foreign_keys_accepted schema q Hfks fk Hfk)
          as (Hcol & parent & Hp & Hkey).
        split; [done|]. exists parent. split; [|done].
        by apply find_table_app_some.
      * eapply Forall_impl; [exact Hadded|].
        intros d (Hin & Hfree & Hfk). split; [by right|]. split; [|done].
        by apply find_table_app_none in Hfree.
Qed.

End SchemaAppends.

(** The initializer only appends: a successful run keeps every definition
    that was there, under its name and as it was, also a table that has the
    name of one of the five but another definition, and what it adds are
    statements of its own for names that were free. *)
Theorem setup_tables_only_appends (schema schema' : list Schema.table_def) :
  Schema.setup_tables schema = Ok schema' ->
  exists added,
    schema' = schema ++ added
    /\ (forall d, In d added ->
          In d Schema.queries
          /\ Schema.find_table schema (Schema.table_name d) = None)
    /\ (forall name d, Schema.find_table schema name = Some d ->
                       Schema.find_table schema' name = Some d).
Proof.
  intros Hrun. apply execute_all_appends in Hrun as (added & -> & Hadded).
  exists added. split; [done|]. split.
  - intros d Hd. rewrite List.Forall_forall in Hadded.
    destruct (Hadded d Hd) as (Hq & Hfree & _). done.
  - intros name d. apply find_table_app_some.
Qed.

Lemma setup_tables_only_appends_witness :
  exists added,
    Sample.legacy_schema ++ [Sample.colors_table] = Sample.legacy_schema ++ added
    /\ Schema.find_table (Sample.legacy_schema ++ [Sample.colors_table]) "episodes"
       = Some (Schema.Table "episodes" [Schema.Column "id" Schema.INT true] []).
Proof.
  destruct (setup_tables_only_appends Sample.legacy_schema
              (Sample.legacy_schema ++ [Sample.colors_table]))
    as (added & Heq & _ & Hkept).
  - vm_compute. reflexivity.
  - exists added. split; [exact Heq|]. apply Hkept. vm_compute. reflexivity.
Defined.

(** After a successful run every table the run added has its foreign keys
    resolved in the final schema: the column is one of the table's and the
    referenced table is there with the referenced column as a key. *)
Theorem setup_tables_resolves_foreign_keys (schema schema' : list Schema.table_def) :
  Schema.setup_tables schema = Ok schema' ->
  forall d fk,
    In d (drop (length schema) schema') -> In fk (Schema.foreign_keys d) ->
    Schema.has_column d (Schema.fk_column fk) = true
    /\ exists parent,
         Schema.find_table schema' (Schema.fk_table fk) = Some parent
         /\ Schema.has_key parent (Schema.fk_references fk) = true.
Proof.
  intros Hrun d fk Hd Hfk.
  apply execute_all_appends in Hrun as (added & -> & Hadded).
  rewrite drop_app_length in Hd. rewrite List.Forall_forall in Hadded.
  destruct (Hadded d Hd) as (_ & _ & Hfks). by apply Hfks.
Qed.

Lemma setup_tables_resolves_foreign_keys_witness :
  exists parent,
    Schema.find_table Schema.queries "subject_matters" = Some parent
    /\ Schema.has_key parent "subject_matter_id" = true.
Proof.
  destruct (setup_tables_resolves_foreign_keys [] Schema.queries
              ltac:(vm_compute; reflexivity)
              (Schema.Table "episode_subject_matters"
                 [ Schema.Column "episode_id" Schema.INT false;
                   Schema.Column "subject_matter_id" Schema.INT false ]
                 [ Schema.ForeignKey "episode_id" "episodes" "episode_id";
                   Schema.ForeignKey "subject_matter_id" "subject_matters"
                     "subject_matter_id" ])
              (Schema.ForeignKey "subject_matter_id" "subject_matters"
                 "subject_matter_id"))
    as (_ & Hparent).
  - vm_compute. do 4 right. left. reflexivity.
  - vm_compute. right. left. reflexivity.
  - exact Hparent.
Defined.

(** ** Inserts and generated keys *)

Lemma fold_insert_rows {A R : Type} (mk : A -> Z -> R) (l : list A)
  (cursor : table R) :
  fold_left (fun t x => insert (mk x) t) l cursor
  = MkTable
      (rows cursor
       ++ imap (fun i x => mk x (auto_increment cursor + Z.of_nat i)) l)
      (auto_increment cursor + Z.of_nat (length l)).
Proof.
  revert cursor. induction l as [|a l IH]; intros cursor; simpl.
  - destruct cursor. simpl. by rewrite app_nil_r, Z.add_0_r.
  - rewrite IH. unfold insert. simpl. f_equal.
    + rewrite <- app_assoc. simpl. rewrite Z.add_0_r. do 2 f_equal.
      apply imap_ext. intros i x _. simpl. f_equal. lia.
    + lia.
Qed.

Lemma fresh_ids_insert {R : Type} (id : R -> Z) (mk : Z -> R) (t : table R) :
  (forall z, id (mk z) = z) -> fresh_ids id t -> fresh_ids id (insert mk t).
Proof.
  intros Hid [Hnd Hlt]. unfold fresh_ids, insert. simpl. split.
  - rewrite map_app. simpl. rewrite Hid. apply NoDup_app.
    split; [done|]. split; [|apply NoDup_singleton].
    intros x Hx Hx'. apply list_elem_of_singleton in Hx' as ->.
    apply list_elem_of_In, in_map_iff in Hx as (r & Hr & Hin).
    rewrite List.Forall_forall in Hlt. specialize (Hlt r Hin). lia.
  - apply Forall_app. split.
    + eapply Forall_impl; [exact Hlt|]. intros r Hr. simpl in *. lia.
    + constructor; [|constructor]. rewrite Hid. lia.
Qed.

Lemma fold_insert_fresh {A R : Type} (id : R -> Z) (mk : A -> Z -> R)
  (l : list A) (cursor : table R) :
  (forall x z, id (mk x z) = z) -> fresh_ids id cursor ->
  fresh_ids id (fold_left (fun t x => insert (mk x) t) l cursor).
Proof.
  intros Hid. revert cursor. induction l as [|a l IH]; intros cursor Hf; simpl.
  - exact Hf.
  - apply IH. apply fresh_ids_insert; [apply Hid|exact Hf].
Qed.

Lemma import_episode_inserts (dates_data : list (gmap string string))
  (row : gmap string string) (cursor t : table episode_row) :
  DataImporter.import_episode dates_data row cursor = Ok t ->
  exists mk, t = insert mk cursor /\ forall z, episode_id (mk z) = z.
Proof.
  unfold DataImporter.import_episode. intros H.
  repeat (apply bind_ok in H as (? & _ & H)).
  injection H as <-. eexists. split; [reflexivity|]. done.
Qed.

Lemma import_episodes_loop_grows (dates_data colors_data : list (gmap string string))
  (cursor t : table episode_row) :
  DataImporter.import_episodes_loop dates_data colors_data cursor = Ok t ->
  rows cursor `prefix_of` rows t
  /\ (fresh_ids episode_id cursor -> fresh_ids episode_id t).
Proof.
  revert cursor. induction colors_data as [|row rest IH]; intros cursor; simpl.
  - intros [= <-]. done.
  - intros H. apply bind_ok in H as (c1 & Hrow & Hrest).
    apply import_episode_inserts in Hrow as (mk & -> & Hid).
    destruct (IH _ Hrest) as [Hpre Hfresh]. split.
    + etrans; [|exact Hpre]. unfold insert. simpl. by apply prefix_app_r.
    + intros Hf. by apply Hfresh, fresh_ids_insert.
Qed.

(** ** The color import *)

Lemma color_names_hex_ok (data : list (gmap string string)) :
  forallb (has_keys ["colors"; "color_hex"]) data = true ->
  exists pairs,
    DataImporter.color_names_hex data = Ok pairs
    /\ Forall2 (fun row p => row !! "colors" = Some p.1
                             /\ row !! "color_hex" = Some p.2) data pairs.
Proof.
  induction data as [|row rest IH]; simpl; intros Hk.
  - exists []. split; [done|constructor].
  - apply andb_true_iff in Hk as [Hrow Hrest].
    key_of Hrow "colors" c Hc. key_of Hrow "color_hex" h Hh.
    destruct (IH Hrest) as (pairs & Hp & Hall).
    exists ((c, h) :: pairs). unfold Py.getitem. rewrite Hc, Hh. simpl.
    rewrite Hp. simpl. split; [done|]. by constructor.
Qed.

Lemma color_names_hex_missing (data : list (gmap string string)) :
  forallb (has_keys ["colors"; "color_hex"]) data = false ->
  exists k,
    DataImporter.color_names_hex data = Raise (KeyError k)
    /\ (k = "colors" \/ k = "color_hex").
Proof.
  induction data as [|row rest IH]; simpl; [discriminate|]. intros Hk.
  unfold Py.getitem.
  destruct (row !! "colors") as [c|] eqn:Hc; simpl; [|by eauto].
  destruct (row !! "color_hex") as [h|] eqn:Hh; simpl; [|by eauto].
  assert (Hrow : has_keys ["colors"; "color_hex"] row = true).
  { unfold has_keys. simpl. rewrite Hc, Hh. done. }
  rewrite Hrow in Hk. simpl in Hk.
  destruct (IH Hk) as (k & -> & Hwhich). simpl. eauto.
Qed.

(** The color import adds one Color per color row, in file order and
    without looking for duplicates: the k-th new Color has the name and the
    hex string of the k-th row and the k-th next generated id. *)
Theorem one_color_per_color_row
  (colors_data : list (gmap string string)) (db : database) :
  forallb (has_keys ["colors"; "color_hex"]) colors_data = true ->
  exists new,
    DataImporter._import_colors colors_data db = (Ok (), with_new_colors db new)
    /\ Forall2 color_of_row colors_data new
    /\ forall i c, new !! i = Some c ->
                   color_id c = auto_increment (colors db) + Z.of_nat i.
Proof.
  intros Hk. destruct (color_names_hex_ok colors_data Hk) as (pairs & Hp & Hall).
  exists (imap (fun i ch => Color (auto_increment (colors db) + Z.of_nat i) ch.1 ch.2)
               pairs).
  unfold DataImporter._import_colors, DataImporter.insert_colors. rewrite Hp.
  rewrite (fold_insert_rows (fun ch id => Color id ch.1 ch.2)).
  unfold with_new_colors. rewrite length_imap. split; [done|]. split.
  - apply Forall2_same_length_lookup. split.
    + rewrite length_imap. by eapply Forall2_length.
    + intros i row c Hrow Hc. rewrite list_lookup_imap in Hc.
      destruct (pairs !! i) as [p|] eqn:Hpi; [|discriminate].
      injection Hc as <-. unfold color_of_row. simpl.
      by apply (Forall2_lookup_lr _ _ _ _ _ _ Hall Hrow Hpi).
  - intros i c Hc. rewrite list_lookup_imap in Hc.
    destruct (pairs !! i) as [p|]; [|discriminate]. by injection Hc as <-.
Qed.

Lemma one_color_per_color_row_witness :
  exists new,
    DataImporter._import_colors
      (records_of DataImporter.colors_columns
         [Sample.mountain_brown; Sample.mountain_brown]) empty_database
    = (Ok (), with_new_colors empty_database new)
    /\ map color_name new = ["Van Dyke Brown"; "Van Dyke Brown"].
Proof.
  destruct (one_color_per_color_row
              (records_of DataImporter.colors_columns
                 [Sample.mountain_brown; Sample.mountain_brown]) empty_database)
    as (new & Hrun & _).
  - vm_compute. reflexivity.
  - exists new. split; [exact Hrun|].
    vm_compute in Hrun. injection Hrun as <-. reflexivity.
Defined.

(** A color row without [colors] or [color_hex] makes the color import
    raise [KeyError] for that key before any INSERT: no Color is added, not
    even for the rows before it. *)
Theorem import_colors_needs_both_keys
  (colors_data : list (gmap string string)) (db : database) :
  forallb (has_keys ["colors"; "color_hex"]) colors_data = false ->
  exists k,
    DataImporter._import_colors colors_data db = (Raise (KeyError k), db)
    /\ (k = "colors" \/ k = "color_hex").
Proof.
  intros Hk. destruct (color_names_hex_missing colors_data Hk) as (k & Hp & Hwhich).
  exists k. unfold DataImporter._import_colors. by rewrite Hp.
Qed.

Lemma import_colors_needs_both_keys_witness :
  exists k,
    DataImporter._import_colors
      (records_of DataImporter.colors_columns [Sample.mountain_brown]
       ++ [Py.dict [("colors", "Sap Green")]]) empty_database
    = (Raise (KeyError k), empty_database)
    /\ (k = "colors" \/ k = "color_hex").
Proof.
  apply (import_colors_needs_both_keys
           (records_of DataImporter.colors_columns [Sample.mountain_brown]
            ++ [Py.dict [("colors", "Sap Green")]]) empty_database).
  vm_compute. reflexivity.
Defined.

(** ** Rows and keys across a run *)

Lemma extends_refl (db : database) : extends db db.
Proof. unfold extends. done. Qed.

Lemma sound_and_then (p q : DataImporter.phase) :
  sound_phase p -> sound_phase q -> sound_phase (DataImporter.and_then p q).
Proof.
  intros Hp Hq db. unfold DataImporter.and_then.
  destruct (Hp db) as [Hext Hkeys]. destruct (p db) as [[[]|e] db']; simpl in *.
  - destruct (Hq db') as [Hext' Hkeys']. split; [|by auto].
    destruct Hext as (He & Hc & Hs). destruct Hext' as (He' & Hc' & Hs').
    repeat split; etrans; eassumption.
  - done.
Qed.

Lemma sound_call_method (name : string) (d : DataImporter.datasets) :
  sound_phase (DataImporter.call_method name d).
Proof.
  intros db. unfold DataImporter.call_method.
  destruct (DataImporter.lookup_method name DataImporter.methods) as [m|] eqn:Hm;
    [|split; [apply extends_refl|done]].
  unfold DataImporter.methods in Hm. simpl in Hm.
  repeat match type of Hm with
         | (if ?b then _ else _) = _ => destruct b; [injection Hm as <-|]
         end; try discriminate.
  - unfold DataImporter._import_episodes.
    destruct (DataImporter.import_episodes_loop _ _ _) as [t|e] eqn:Hloop;
      [|split; [apply extends_refl|done]].
    apply import_episodes_loop_grows in Hloop as [Hpre Hfresh]. simpl. split.
    + unfold extends. simpl. done.
    + intros (He & Hc & Hs). unfold primary_keys_ok. simpl. auto.
  - unfold DataImporter._import_colors, DataImporter.insert_colors.
    destruct (DataImporter.color_names_hex _) as [pairs|e];
      [|split; [apply extends_refl|done]].
    simpl. split.
    + unfold extends. simpl. split; [done|]. split; [|done].
      rewrite (fold_insert_rows (fun ch id => Color id ch.1 ch.2)). simpl.
      by apply prefix_app_r.
    + intros (He & Hc & Hs). unfold primary_keys_ok. simpl.
      split; [done|]. split; [|done].
      by apply (fold_insert_fresh color_id (fun ch id => Color id ch.1 ch.2)).
  - unfold DataImporter._import_subject_matters, DataImporter.insert_subjects.
    destruct (DataImporter.collect_subjects _ _) as [tags|e];
      [|split; [apply extends_refl|done]].
    simpl. split.
    + unfold extends. simpl. split; [done|]. split; [done|].
      rewrite (fold_insert_rows (fun s id => SubjectMatter id s)). simpl.
      by apply prefix_app_r.
    + intros (He & Hc & Hs). unfold primary_keys_ok. simpl.
      split; [done|]. split; [done|].
      by apply (fold_insert_fresh subject_matter_id (fun s id => SubjectMatter id s)).
Qed.

Lemma sound_import_data (data_dir : gmap string (list (list string))) :
  sound_phase (DataImporter.import_data data_dir).
Proof.
  intros db. unfold DataImporter.import_data.
  destruct (DataImporter.read_datasets data_dir) as [d|e];
    [|split; [apply extends_refl|done]].
  revert db. repeat (apply sound_and_then; [apply sound_call_method|]).
  apply sound_call_method.
Qed.

(** [import_data] never deletes, changes or reorders a stored row: whatever
    the files hold and however the run ends, each of the three tables is
    after the run what it was before, followed by the rows the run added. *)
Theorem import_data_only_appends
  (data_dir : gmap string (list (list string))) (db : database) :
  exists new_episodes new_colors new_subject_matters,
    rows (episodes (DataImporter.import_data data_dir db).2)
      = rows (episodes db) ++ new_episodes
    /\ rows (colors (DataImporter.import_data data_dir db).2)
       = rows (colors db) ++ new_colors
    /\ rows (subject_matters (DataImporter.import_data data_dir db).2)
       = rows (subject_matters db) ++ new_subject_matters.
Proof.
  destruct (sound_import_data data_dir db) as [((e & He) & (c & Hc) & (s & Hs)) _].
  by exists e, c, s.
Qed.

(** [import_data] keeps the generated keys sound: when, in each of the
    three tables, no id is used twice and every id is below the table's
    next AUTO_INCREMENT value, the same holds after the run, so a second run
    on the same database gives new rows new ids. *)
Theorem import_data_keeps_primary_keys
  (data_dir : gmap string (list (list string))) (db : database) :
  primary_keys_ok db ->
  primary_keys_ok (DataImporter.import_data data_dir db).2.
Proof. apply sound_import_data. Qed.

Lemma import_data_keeps_primary_keys_witness :
  primary_keys_ok (DataImporter.import_data Sample.data_dir empty_database).2.
Proof.
  apply (import_data_keeps_primary_keys Sample.data_dir empty_database).
  unfold primary_keys_ok, fresh_ids. simpl. repeat split; constructor.
Defined.

(** ** From the import to the endpoint *)

Lemma get_episode_found (s : App.storage) (e : episode_row) (id : N) :
  App.connect_error s = None -> App.execute_error s = None ->
  NoDup (map episode_id (rows (episodes (App.stored s)))) ->
  e ∈ rows (episodes (App.stored s)) -> episode_id e = Z.of_N id ->
  App.get_episode s id
  = App.Response 200 (episode_object (App.date_column s) e).
Proof.
  intros Hc Hx Hnd He Hid.
  unfold App.get_episode, App.get_db_connection, App.execute_select_by_id.
  rewrite Hc, Hx. cbn [bind]. by rewrite <- Hid, (filter_id_unique _ e Hnd He).
Qed.

Lemma get_episode_absent (s : App.storage) (id : N) :
  App.connect_error s = None -> App.execute_error s = None ->
  (forall e, e ∈ rows (episodes (App.stored s)) -> episode_id e <> Z.of_N id) ->
  App.get_episode s id = App.Response 404 (error_json "Episode not found").
Proof.
  intros Hc Hx Hno.
  unfold App.get_episode, App.get_db_connection, App.execute_select_by_id.
  rewrite Hc, Hx. cbn [bind]. by rewrite (filter_id_absent _ _ Hno).
Qed.

(** What the episode import commits is what the endpoint serves: after an
    import of valid rows into a table with sound keys, the Episode of the
    k-th color row is returned with status 200 under the k-th id after the
    table's AUTO_INCREMENT value, as the flat object of its columns (the air
    date as [jsonify] writes what the cursor hands out for the imported
    text), and every id past the last one added gets the 404 answer. *)
Theorem imported_episodes_are_served
  (colors_data dates_data : list (gmap string string)) (db : database)
  (date_column : string -> App.value) :
  fresh_ids episode_id (episodes db) ->
  forallb valid_color_row colors_data = true ->
  forallb (has_keys ["Title"; "Date"]) dates_data = true ->
  (forall k row (id : N),
      colors_data !! k = Some row ->
      Z.of_N id = auto_increment (episodes db) + Z.of_nat k ->
      exists e,
        App.get_episode
          (App.Storage None None
             (DataImporter._import_episodes colors_data dates_data db).2
             date_column) id
        = App.Response 200 (episode_object date_column e)
        /\ episode_of_row dates_data row e)
  /\ (forall id : N,
        auto_increment (episodes db) + Z.of_nat (length colors_data) <= Z.of_N id ->
        App.get_episode
          (App.Storage None None
             (DataImporter._import_episodes colors_data dates_data db).2
             date_column) id
        = App.Response 404 (error_json "Episode not found")).
Proof.
  intros Hf Hv Hd.
  destruct (import_episodes_loop_valid dates_data colors_data (episodes db) Hv Hd)
    as (new & Hloop & Hall & Hids).
  destruct (import_episodes_loop_grows _ _ _ _ Hloop) as [_ Hfresh].
  specialize (Hfresh Hf). destruct Hfresh as [Hnd Hlt]. simpl in Hnd, Hlt.
  unfold DataImporter._import_episodes. rewrite Hloop. simpl.
  pose proof (Forall2_length _ _ _ Hall) as Hlen. split.
  - intros k row id Hrow Hid.
    destruct (Forall2_lookup_l _ _ _ _ _ Hall Hrow) as (e & He & Hrel).
    exists e. split; [|exact Hrel].
    apply (get_episode_found
             (App.Storage None None _ date_column) e id); simpl; try done.
    + apply elem_of_app. right. by eapply list_elem_of_lookup_2.
    + rewrite (Hids k e He). lia.
  - intros id Hid. apply get_episode_absent; simpl; try done.
    intros e He. rewrite Forall_forall in Hlt. specialize (Hlt e He).
    simpl in Hlt. lia.
Qed.

Lemma imported_episodes_are_served_witness :
  exists e,
    App.get_episode
      (App.Storage None None
         (DataImporter._import_episodes Sample.colors_data Sample.dates_data
            empty_database).2 Sample.iso_date) 2
    = App.Response 200 (episode_object Sample.iso_date e)
    /\ title e = "Mountain Grandeur"
    /\ App.body
         (App.get_episode
            (App.Storage None None
               (DataImporter._import_episodes Sample.colors_data Sample.dates_data
                  empty_database).2 Sample.iso_date) 2) !! "air_date"
       = Some (App.JString "Tue, 11 Jan 1983 00:00:00 GMT").
Proof.
  destruct (imported_episodes_are_served Sample.colors_data Sample.dates_data
              empty_database Sample.iso_date)
    as [Hserved _].
  - split; constructor.
  - vm_compute. reflexivity.
  - vm_compute. reflexivity.
  - destruct (Hserved 1%nat
                (Py.dict (zip DataImporter.colors_columns Sample.mountain_white))
                2%N eq_refl eq_refl)
      as (e & Hget & Ht & _).
    exists e. split; [exact Hget|]. split.
    + assert (Hlk : Py.dict (zip DataImporter.colors_columns Sample.mountain_white)
                      !! "painting_title" = Some "Mountain Grandeur")
        by (vm_compute; reflexivity).
      rewrite Hlk in Ht. by injection Ht as <-.
    + vm_compute. reflexivity.
Defined.

(** ** A whole run of [import_data] *)

Lemma records_have_subkeys (columns keys : list string) (file : list (list string))
  (d : gmap string string) :
  (forall k, In k keys -> In k columns) ->
  In d (records_of columns file) -> has_keys keys d = true.
Proof.
  intros Hsub Hd. unfold has_keys. apply forallb_forall. intros k Hk.
  apply bool_decide_eq_true.
  pose proof (records_of_have_keys columns file) as Hall.
  rewrite Forall_forall in Hall.
  apply Hall; apply list_elem_of_In; auto.
Qed.

Lemma numeric_records_are_valid (rows_in : list (gmap string string))
  (file : list (list string)) :
  (forall d, In d rows_in -> In d (records_of DataImporter.colors_columns file)) ->
  forallb numeric_row rows_in = true ->
  forallb valid_color_row rows_in = true.
Proof.
  intros Hin Hnum. apply forallb_forall. intros d Hd.
  rewrite forallb_forall in Hnum. specialize (Hnum d Hd).
  unfold numeric_row in Hnum. unfold valid_color_row.
  rewrite <- andb_assoc, Hnum, andb_true_r.
  apply (records_have_subkeys DataImporter.colors_columns episode_keys file);
    [|by apply Hin].
  unfold episode_keys, DataImporter.colors_columns. simpl. tauto.
Qed.

Lemma read_datasets_present (data_dir : gmap string (list (list string)))
  (cfile sfile dfile : list (list string)) :
  data_dir !! DataImporter.colors_file = Some cfile ->
  data_dir !! DataImporter.subject_matter_file = Some sfile ->
  data_dir !! DataImporter.dates_file = Some dfile ->
  DataImporter.read_datasets data_dir
  = Ok (DataImporter.Datasets
          (records_of DataImporter.colors_columns cfile)
          (records_of ["EPISODE"] sfile)
          (records_of ["Title"; "Date"] dfile)).
Proof.
  intros Hc Hs Hd. unfold DataImporter.read_datasets.
  rewrite (read_file_columns _ _ _ _ Hc). cbn [bind].
  rewrite (read_file_columns _ _ _ _ Hs). cbn [bind].
  by rewrite (read_file_columns _ _ _ _ Hd).
Qed.

Lemma import_data_phases (data_dir : gmap string (list (list string)))
  (d : DataImporter.datasets) (db : database) :
  DataImporter.read_datasets data_dir = Ok d ->
  DataImporter.import_data data_dir db
  = DataImporter.and_then
      (DataImporter._import_episodes (DataImporter.colors_data d)
         (DataImporter.dates_data d))
      (DataImporter.and_then
         (DataImporter._import_colors (DataImporter.colors_data d))
         (DataImporter.and_then
            (DataImporter._import_subject_matters
               (DataImporter.subject_matters_data d))
            (fun db' => (Raise (AttributeError "_import_episode_colors"), db'))))
      db.
Proof.
  intros Hd. unfold DataImporter.import_data. rewrite Hd.
  unfold DataImporter.and_then, DataImporter.call_method. simpl.
  destruct (DataImporter._import_episodes _ _ db) as [[[]|e1] db1]; [|done].
  destruct (DataImporter._import_colors _ db1) as [[[]|e2] db2]; [|done].
  by destruct (DataImporter._import_subject_matters _ db2) as [[[]|e3] db3].
Qed.

Lemma import_subject_matters_ok
  (subject_matters_data : list (gmap string string)) (db : database) :
  forallb (has_keys ["EPISODE"]) subject_matters_data = true ->
  exists new,
    DataImporter._import_subject_matters subject_matters_data db
      = (Ok (), with_new_subject_matters db new)
    /\ NoDup (map subject_matter_name new)
    /\ (forall t, t ∈ map subject_matter_name new <->
                  exists row field, row ∈ subject_matters_data
                                    /\ row !! "EPISODE" = Some field
                                    /\ t ∈ Py.split ";" field).
Proof.
  intros Hk.
  destruct (collect_subjects_tokens subject_matters_data ∅ Hk) as (tags & Hc & Htags).
  destruct (insert_subjects_rows (elements tags) (subject_matters db))
    as (new & Hins & Hnames).
  exists new. unfold DataImporter._import_subject_matters. rewrite Hc, Hins.
  split; [done|]. split.
  - rewrite Hnames. apply NoDup_elements.
  - intros t. rewrite Hnames, elem_of_elements, Htags. split.
    + intros [Ht|Ht]; [by apply not_elem_of_empty in Ht|done].
    + intros Ht. by right.
Qed.

Lemma import_data_valid_run
  (data_dir : gmap string (list (list string)))
  (cfile sfile dfile : list (list string)) (db : database) :
  data_dir !! DataImporter.colors_file = Some cfile ->
  data_dir !! DataImporter.subject_matter_file = Some sfile ->
  data_dir !! DataImporter.dates_file = Some dfile ->
  forallb numeric_row (records_of DataImporter.colors_columns cfile) = true ->
  exists new_episodes new_colors new_subject_matters,
    DataImporter.import_data data_dir db
    = (Raise (AttributeError "_import_episode_colors"),
       with_new_subject_matters
         (with_new_colors (with_new_episodes db new_episodes) new_colors)
         new_subject_matters)
    /\ Forall2 (episode_of_row (records_of ["Title"; "Date"] dfile))
               (records_of DataImporter.colors_columns cfile) new_episodes
    /\ Forall2 color_of_row
               (records_of DataImporter.colors_columns cfile) new_colors
    /\ NoDup (map subject_matter_name new_subject_matters).
Proof.
  intros Hc Hs Hd Hnum.
  rewrite (import_data_phases _ _ db (read_datasets_present _ _ _ _ Hc Hs Hd)).
  cbn [DataImporter.colors_data DataImporter.dates_data
       DataImporter.subject_matters_data].
  assert (Hvalid : forallb valid_color_row
                     (records_of DataImporter.colors_columns cfile) = true)
    by (by apply (numeric_records_are_valid _ cfile)).
  destruct (import_episodes_valid _ (records_of ["Title"; "Date"] dfile) db Hvalid
              (records_of_has_keys _ dfile))
    as (eps & He & Heps & _).
  assert (Hck : forallb (has_keys ["colors"; "color_hex"])
                  (records_of DataImporter.colors_columns cfile) = true).
  { apply forallb_forall. intros r Hr.
    apply (records_have_subkeys DataImporter.colors_columns _ cfile); [|done].
    unfold DataImporter.colors_columns. simpl. tauto. }
  assert (Hcolors : exists cols,
             DataImporter._import_colors
               (records_of DataImporter.colors_columns cfile)
               (with_new_episodes db eps)
             = (Ok (), with_new_colors (with_new_episodes db eps) cols)
             /\ Forall2 color_of_row
                  (records_of DataImporter.colors_columns cfile) cols).
  { destruct (color_names_hex_ok _ Hck) as (pairs & Hp & Hall).
    exists (imap (fun i ch => Color (auto_increment (colors db) + Z.of_nat i) ch.1 ch.2)
                 pairs).
    unfold DataImporter._import_colors, DataImporter.insert_colors. rewrite Hp.
    rewrite (fold_insert_rows (fun ch id => Color id ch.1 ch.2)).
    unfold with_new_colors. rewrite length_imap. split; [done|].
    apply Forall2_same_length_lookup. split.
    - rewrite length_imap. by eapply Forall2_length.
    - intros i row c Hrow Hcl. rewrite list_lookup_imap in Hcl.
      destruct (pairs !! i) as [p|] eqn:Hpi; [|discriminate].
      injection Hcl as <-. unfold color_of_row. simpl.
      by apply (Forall2_lookup_lr _ _ _ _ _ _ Hall Hrow Hpi). }
  destruct Hcolors as (cols & Hcl & Hcols).
  destruct (import_subject_matters_ok (records_of ["EPISODE"] sfile)
              (with_new_colors (with_new_episodes db eps) cols)
              (records_of_has_keys _ sfile))
    as (subs & Hsm & Hnd & _).
  exists eps, cols, subs. unfold DataImporter.and_then.
  rewrite He, Hcl, Hsm. done.
Qed.

(** A run on three readable files whose 7-field color rows all have numeric
    season and episode: the Episode, Color and SubjectMatter phases commit,
    with one Episode and one Color per 7-field color row and the tags
    without repetition, and the run then stops with [AttributeError] for
    [_import_episode_colors]; it does not end normally. *)
Theorem import_data_commits_three_phases_then_raises
  (data_dir : gmap string (list (list string)))
  (cfile sfile dfile : list (list string)) (db : database) :
  data_dir !! DataImporter.colors_file = Some cfile ->
  data_dir !! DataImporter.subject_matter_file = Some sfile ->
  data_dir !! DataImporter.dates_file = Some dfile ->
  forallb numeric_row (records_of DataImporter.colors_columns cfile) = true ->
  exists new_episodes new_colors new_subject_matters,
    DataImporter.import_data data_dir db
    = (Raise (AttributeError "_import_episode_colors"),
       with_new_subject_matters
         (with_new_colors (with_new_episodes db new_episodes) new_colors)
         new_subject_matters)
    /\ Forall2 (episode_of_row (records_of ["Title"; "Date"] dfile))
               (records_of DataImporter.colors_columns cfile) new_episodes
    /\ Forall2 color_of_row
               (records_of DataImporter.colors_columns cfile) new_colors
    /\ NoDup (map subject_matter_name new_subject_matters).
Proof. apply import_data_valid_run. Qed.

Lemma import_data_commits_three_phases_then_raises_witness :
  exists new_episodes new_colors new_subject_matters,
    DataImporter.import_data Sample.data_dir empty_database
    = (Raise (AttributeError "_import_episode_colors"),
       with_new_subject_matters
         (with_new_colors (with_new_episodes empty_database new_episodes) new_colors)
         new_subject_matters)
    /\ length new_episodes = 2%nat /\ length new_colors = 2%nat.
Proof.
  destruct (import_data_commits_three_phases_then_raises Sample.data_dir
              [Sample.mountain_brown; Sample.mountain_white]
              Sample.subject_rows Sample.dates_rows empty_database)
    as (eps & cols & subs & Hrun & He & Hc & _).
  - vm_compute. reflexivity.
  - vm_compute. reflexivity.
  - vm_compute. reflexivity.
  - vm_compute. reflexivity.
  - exists eps, cols, subs. split; [exact Hrun|]. split.
    + by rewrite <- (Forall2_length _ _ _ He).
    + by rewrite <- (Forall2_length _ _ _ Hc).
Defined.

(** The three files are read before anything is imported: when one of them
    is missing the run raises [FileNotFoundError] for the first missing one,
    in the order colors, subject matter, dates, and the database is left as
    it was, whatever the files that are there hold. *)
Theorem import_data_needs_all_three_files
  (data_dir : gmap string (list (list string))) (db : database) :
  data_dir !! DataImporter.colors_file = None
  \/ data_dir !! DataImporter.subject_matter_file = None
  \/ data_dir !! DataImporter.dates_file = None ->
  exists missing,
    DataImporter.import_data data_dir db = (Raise (FileNotFoundError missing), db)
    /\ data_dir !! missing = None
    /\ (missing = DataImporter.colors_file
        \/ (missing = DataImporter.subject_matter_file
            /\ is_Some (data_dir !! DataImporter.colors_file))
        \/ (missing = DataImporter.dates_file
            /\ is_Some (data_dir !! DataImporter.colors_file)
            /\ is_Some (data_dir !! DataImporter.subject_matter_file))).
Proof.
  intros Hmissing.
  unfold DataImporter.import_data, DataImporter.read_datasets.
  destruct (data_dir !! DataImporter.colors_file) as [cfile|] eqn:Hc.
  - rewrite (read_file_columns _ _ _ _ Hc). cbn [bind].
    destruct (data_dir !! DataImporter.subject_matter_file) as [sfile|] eqn:Hs.
    + rewrite (read_file_columns _ _ _ _ Hs). cbn [bind].
      destruct (data_dir !! DataImporter.dates_file) as [dfile|] eqn:Hd.
      * destruct Hmissing as [H|[H|H]]; discriminate H.
      * exists DataImporter.dates_file.
        unfold CSVReader.read_file, CSVReader.open_reader. rewrite Hd.
        split; [done|]. split; [done|]. right. right. eauto.
    + exists DataImporter.subject_matter_file.
      unfold CSVReader.read_file, CSVReader.open_reader. rewrite Hs.
      split; [done|]. split; [done|]. right. left. eauto.
  - exists DataImporter.colors_file.
    unfold CSVReader.read_file, CSVReader.open_reader. rewrite Hc.
    split; [done|]. split; [done|]. by left.
Qed.

Lemma import_data_needs_all_three_files_witness :
  exists missing,
    DataImporter.import_data (delete DataImporter.dates_file Sample.data_dir)
      empty_database
    = (Raise (FileNotFoundError missing), empty_database)
    /\ delete DataImporter.dates_file Sample.data_dir !! missing = None.
Proof.
  destruct (import_data_needs_all_three_files
              (delete DataImporter.dates_file Sample.data_dir) empty_database)
    as (missing & Hrun & Hnone & _).
  - right. right. vm_compute. reflexivity.
  - exists missing. split; [exact Hrun|exact Hnone].
Defined.

(** One color row of 7 fields whose season or episode is not an integer (a
    header line left in the file, for one) stops the whole run: it raises
    [ValueError] for that field in the first phase, and no Episode, no
    Color and no SubjectMatter is committed, though the later phases would
    have gone through. *)
Theorem import_data_imports_nothing_after_a_malformed_row
  (data_dir : gmap string (list (list string)))
  (cfile sfile dfile : list (list string)) (db : database)
  (before after : list (gmap string string)) (row : gmap string string)
  (s p : string) :
  data_dir !! DataImporter.colors_file = Some cfile ->
  data_dir !! DataImporter.subject_matter_file = Some sfile ->
  data_dir !! DataImporter.dates_file = Some dfile ->
  records_of DataImporter.colors_columns cfile = before ++ row :: after ->
  forallb numeric_row before = true ->
  row !! "season" = Some s -> row !! "episode" = Some p ->
  Py.parse_int s = None \/ Py.parse_int p = None ->
  DataImporter.import_data data_dir db
  = (Raise (ValueError (match Py.parse_int s with Some _ => p | None => s end)),
     db).
Proof.
  intros Hc Hs Hd Hsplit Hnum Hseason Hepisode Hbad.
  rewrite (import_data_phases _ _ db (read_datasets_present _ _ _ _ Hc Hs Hd)).
  cbn [DataImporter.colors_data DataImporter.dates_data
       DataImporter.subject_matters_data].
  assert (Hvalid : forallb valid_color_row before = true).
  { apply (numeric_records_are_valid _ cfile); [|done].
    intros d Hin. rewrite Hsplit. apply in_or_app. by left. }
  assert (Hrow : has_keys ["painting_title"] row = true).
  { apply (records_have_subkeys DataImporter.colors_columns _ cfile).
    - unfold DataImporter.colors_columns. simpl. tauto.
    - rewrite Hsplit. apply in_or_app. right. by left. }
  key_of Hrow "painting_title" t Ht.
  unfold DataImporter.and_then, DataImporter._import_episodes at 1.
  rewrite Hsplit, import_episodes_loop_app.
  destruct (import_episodes_loop_valid (records_of ["Title"; "Date"] dfile)
              before (episodes db) Hvalid (records_of_has_keys _ dfile))
    as (new & -> & _).
  cbn [bind DataImporter.import_episodes_loop].
  by rewrite (import_episode_malformed _ _ _ t s p).
Qed.

Lemma import_data_imports_nothing_after_a_malformed_row_witness :
  DataImporter.import_data
    (<[DataImporter.colors_file :=
         [DataImporter.colors_columns; Sample.mountain_brown]]> Sample.data_dir)
    empty_database
  = (Raise (ValueError "season"), empty_database).
Proof.
  apply (import_data_imports_nothing_after_a_malformed_row
           (<[DataImporter.colors_file :=
                [DataImporter.colors_columns; Sample.mountain_brown]]>
              Sample.data_dir)
           [DataImporter.colors_columns; Sample.mountain_brown]
           Sample.subject_rows Sample.dates_rows empty_database
           []
           (records_of DataImporter.colors_columns [Sample.mountain_brown])
           (Py.dict (zip DataImporter.colors_columns DataImporter.colors_columns))
           "season" "episode").
  - vm_compute. reflexivity.
  - vm_compute. reflexivity.
  - vm_compute. reflexivity.
  - vm_compute. reflexivity.
  - reflexivity.
  - vm_compute. reflexivity.
  - vm_compute. reflexivity.
  - left. vm_compute. reflexivity.
Defined.

(** ** Tags *)

Lemma split_not_nil (sep : ascii) (s : string) : Py.split sep s <> [].
Proof.
  destruct s as [|c r]; simpl; [discriminate|].
  destruct (Ascii.eqb c sep); [discriminate|].
  destruct (Py.split sep r); discriminate.
Qed.

Lemma split_no_separator (sep : ascii) (s t : string) :
  In t (Py.split sep s) -> has_char sep t = false.
Proof.
  revert t. induction s as [|c r IH]; intros t; simpl.
  - intros [<-|[]]. reflexivity.
  - destruct (Ascii.eqb c sep) eqn:Hc.
    + intros [<-|Ht]; [reflexivity|by apply IH].
    + destruct (Py.split sep r) as [|t0 ts] eqn:Hr.
      * intros [<-|[]]. simpl. by rewrite Hc.
      * intros [<-|Ht].
        -- simpl. rewrite Hc. simpl. apply IH. by left.
        -- apply IH. by right.
Qed.

(** No tag the subject-matter import adds contains a [;], and a dataset
    with at least one row adds at least one tag (an empty field gives the
    empty tag). *)
Theorem subject_matter_names_have_no_separator
  (subject_matters_data : list (gmap string string)) (db : database) :
  forallb (has_keys ["EPISODE"]) subject_matters_data = true ->
  exists new,
    DataImporter._import_subject_matters subject_matters_data db
      = (Ok (), with_new_subject_matters db new)
    /\ Forall (fun r => has_char ";" (subject_matter_name r) = false) new
    /\ (subject_matters_data <> [] -> new <> []).
Proof.
  intros Hk.
  destruct (import_subject_matters_ok subject_matters_data db Hk)
    as (new & Hrun & _ & Hmem).
  exists new. split; [exact Hrun|]. split.
  - apply Forall_forall. intros r Hr.
    assert (Hin : subject_matter_name r ∈ map subject_matter_name new)
      by (by apply list_elem_of_fmap_2).
    apply Hmem in Hin as (row & field & _ & _ & Ht).
    apply (split_no_separator ";" field). by apply list_elem_of_In.
  - intros Hne Hnew. destruct subject_matters_data as [|row rest]; [done|].
    simpl in Hk. apply andb_true_iff in Hk as [Hrow _].
    key_of Hrow "EPISODE" field Hfield.
    destruct (Py.split ";" field) as [|t ts] eqn:Hs;
      [by apply split_not_nil in Hs|].
    assert (Hin : t ∈ map subject_matter_name new).
    { apply Hmem. exists row, field. split; [left|]. split; [done|].
      rewrite Hs. left. }
    rewrite Hnew in Hin. by apply elem_of_nil in Hin.
Qed.

Lemma subject_matter_names_have_no_separator_witness :
  exists new,
    DataImporter._import_subject_matters [Py.dict [("EPISODE", "")]] empty_database
      = (Ok (), with_new_subject_matters empty_database new)
    /\ new <> [].
Proof.
  destruct (subject_matter_names_have_no_separator
              [Py.dict [("EPISODE", "")]] empty_database)
    as (new & Hrun & _ & Hne).
  - vm_compute. reflexivity.
  - exists new. split; [exact Hrun|]. apply Hne. discriminate.
Defined.

(** The tags are deduplicated within one run only: importing the same
    dataset a second time adds every tag again, so that in a table that was
    empty before the first run every tag is the name of exactly two rows. *)
Theorem second_subject_matter_import_duplicates_the_tags
  (subject_matters_data : list (gmap string string)) (db : database) :
  forallb (has_keys ["EPISODE"]) subject_matters_data = true ->
  rows (subject_matters db) = [] ->
  exists first second,
    DataImporter.and_then
      (DataImporter._import_subject_matters subject_matters_data)
      (DataImporter._import_subject_matters subject_matters_data) db
    = (Ok (), with_new_subject_matters (with_new_subject_matters db first) second)
    /\ forall row field t,
         row ∈ subject_matters_data -> row !! "EPISODE" = Some field ->
         t ∈ Py.split ";" field ->
         length (List.filter
                   (fun r => String.eqb (subject_matter_name r) t)
                   (rows (subject_matters
                      (with_new_subject_matters
                         (with_new_subject_matters db first) second))))
         = 2%nat.
Proof.
  intros Hk Hempty.
  destruct (import_subject_matters_ok subject_matters_data db Hk)
    as (first & Hrun1 & Hnd1 & Hmem1).
  destruct (import_subject_matters_ok subject_matters_data
              (with_new_subject_matters db first) Hk)
    as (second & Hrun2 & Hnd2 & Hmem2).
  exists first, second. unfold DataImporter.and_then. rewrite Hrun1, Hrun2.
  split; [done|]. intros row field t Hrow Hfield Ht. simpl.
  rewrite Hempty. simpl. rewrite List.filter_app, length_app.
  rewrite (count_of_unique_name _ first t Hnd1), (count_of_unique_name _ second t Hnd2);
    [done| |].
  - apply Hmem2. by exists row, field.
  - apply Hmem1. by exists row, field.
Qed.

Lemma second_subject_matter_import_duplicates_the_tags_witness :
  exists first second,
    DataImporter.and_then
      (DataImporter._import_subject_matters Sample.subject_matters_data)
      (DataImporter._import_subject_matters Sample.subject_matters_data)
      empty_database
    = (Ok (), with_new_subject_matters
                (with_new_subject_matters empty_database first) second)
    /\ length (List.filter
                 (fun r => String.eqb (subject_matter_name r) "lake")
                 (rows (subject_matters
                    (with_new_subject_matters
                       (with_new_subject_matters empty_database first) second))))
       = 2%nat.
Proof.
  destruct (second_subject_matter_import_duplicates_the_tags
              Sample.subject_matters_data empty_database)
    as (first & second & Hrun & Htwice).
  - vm_compute. reflexivity.
  - reflexivity.
  - exists first, second. split; [exact Hrun|].
    apply (Htwice (Py.dict (zip ["EPISODE"] ["tree;lake"])) "tree;lake").
    + vm_compute. left.
    + vm_compute. reflexivity.
    + vm_compute. right. left.
Defined.

(** ** Trimmed titles *)

Lemma rstrip_chars_unpadded (l : list ascii) (c : ascii) :
  Py.isspace (List.last (c :: l) c) = false ->
  Py.rstrip_chars (c :: l) = c :: l.
Proof.
  intros Hlast.
  remember (List.last (c :: l) c) as x eqn:Hx.
  remember (removelast (c :: l)) as front eqn:Hfront.
  assert (Hsplit : c :: l = front ++ [x]).
  { subst. apply app_removelast_last. discriminate. }
  rewrite Hsplit. unfold Py.rstrip_chars. rewrite rev_unit. simpl.
  rewrite Hlast. simpl. by rewrite rev_involutive.
Qed.

Lemma strip_unpadded (s : string) : outer_space s = false -> Py.strip s = s.
Proof.
  unfold outer_space, Py.strip. intros Hs.
  destruct (list_ascii_of_string s) as [|c r] eqn:Hchars.
  - simpl. by rewrite <- (string_of_list_ascii_of_string s), Hchars.
  - apply orb_false_iff in Hs as [Hc Hlast].
    simpl Py.lstrip_chars. rewrite Hc, (rstrip_chars_unpadded r c Hlast).
    rewrite <- Hchars. apply string_of_list_ascii_of_string.
Qed.

Lemma strip_idempotent (s : string) : Py.strip (Py.strip s) = Py.strip s.
Proof. apply strip_unpadded, strip_no_outer_space. Qed.

(** The lookup does not see padding in the dates file: trimming the title
    of every dates record beforehand changes no lookup, for any title, the
    [KeyError] of a record without title included. *)
Theorem next_date_ignores_padding_in_dates
  (dates_data : list (gmap string string)) (t : string) :
  DataImporter.next_date (map trim_title dates_data) t
  = DataImporter.next_date dates_data t.
Proof.
  induction dates_data as [|date rest IH]; simpl; [done|].
  unfold trim_title at 1, Py.getitem.
  destruct (date !! "Title") as [dt|] eqn:Hdt.
  - rewrite lookup_insert_eq. cbn [bind]. rewrite strip_idempotent.
    destruct (String.eqb (Py.strip dt) t); [|exact IH].
    unfold trim_title. rewrite Hdt. by rewrite lookup_insert_ne.
  - rewrite Hdt. done.
Qed.

(** A title without outer whitespace matches a dates title exactly when
    the two are equal once both are trimmed. *)
Theorem unpadded_title_matches_by_trimmed_equality (t dt : string) :
  outer_space t = false ->
  String.eqb (Py.strip dt) t = String.eqb (Py.strip dt) (Py.strip t).
Proof. intros Ht. by rewrite (strip_unpadded t Ht). Qed.

Lemma unpadded_title_matches_by_trimmed_equality_witness :
  String.eqb (Py.strip " Mountain Grandeur ") "Mountain Grandeur"
  = String.eqb (Py.strip " Mountain Grandeur ") (Py.strip "Mountain Grandeur").
Proof.
  apply (unpadded_title_matches_by_trimmed_equality "Mountain Grandeur"
           " Mountain Grandeur ").
  reflexivity.
Defined.

(** ** Episodes and colors side by side *)

Lemma import_colors_ok (colors_data : list (gmap string string)) (db : database) :
  forallb (has_keys ["colors"; "color_hex"]) colors_data = true ->
  exists new,
    DataImporter._import_colors colors_data db = (Ok (), with_new_colors db new)
    /\ Forall2 color_of_row colors_data new
    /\ forall i c, new !! i = Some c ->
                   color_id c = auto_increment (colors db) + Z.of_nat i.
Proof.
  intros Hk. destruct (color_names_hex_ok colors_data Hk) as (pairs & Hp & Hall).
  exists (imap (fun i ch => Color (auto_increment (colors db) + Z.of_nat i) ch.1 ch.2)
               pairs).
  unfold DataImporter._import_colors, DataImporter.insert_colors. rewrite Hp.
  rewrite (fold_insert_rows (fun ch id => Color id ch.1 ch.2)).
  unfold with_new_colors. rewrite length_imap. split; [done|]. split.
  - apply Forall2_same_length_lookup. split.
    + rewrite length_imap. by eapply Forall2_length.
    + intros i row c Hrow Hc. rewrite list_lookup_imap in Hc.
      destruct (pairs !! i) as [p|] eqn:Hpi; [|discriminate].
      injection Hc as <-. unfold color_of_row. simpl.
      by apply (Forall2_lookup_lr _ _ _ _ _ _ Hall Hrow Hpi).
  - intros i c Hc. rewrite list_lookup_imap in Hc.
    destruct (pairs !! i) as [p|]; [|discriminate]. by injection Hc as <-.
Qed.

(** The Episode phase and the Color phase walk the same rows in the same
    order: when the two tables have the same next AUTO_INCREMENT value (two
    empty tables, for one), the Episode and the Color of the k-th color row
    get the same id. *)
Theorem episodes_and_colors_are_row_aligned
  (colors_data dates_data : list (gmap string string)) (db : database) :
  auto_increment (episodes db) = auto_increment (colors db) ->
  forallb valid_color_row colors_data = true ->
  forallb (has_keys ["colors"; "color_hex"]) colors_data = true ->
  forallb (has_keys ["Title"; "Date"]) dates_data = true ->
  exists new_episodes new_colors,
    DataImporter.and_then
      (DataImporter._import_episodes colors_data dates_data)
      (DataImporter._import_colors colors_data) db
    = (Ok (), with_new_colors (with_new_episodes db new_episodes) new_colors)
    /\ forall k row,
         colors_data !! k = Some row ->
         exists e c,
           new_episodes !! k = Some e /\ new_colors !! k = Some c
           /\ episode_id e = color_id c
           /\ episode_of_row dates_data row e /\ color_of_row row c.
Proof.
  intros Hai Hv Hk Hd.
  destruct (import_episodes_valid colors_data dates_data db Hv Hd)
    as (eps & He & Heps & Heids).
  destruct (import_colors_ok colors_data (with_new_episodes db eps) Hk)
    as (cols & Hc & Hcols & Hcids).
  exists eps, cols. unfold DataImporter.and_then. rewrite He, Hc.
  split; [done|]. intros k row Hrow.
  destruct (Forall2_lookup_l _ _ _ _ _ Heps Hrow) as (e & Hek & Hrel).
  destruct (Forall2_lookup_l _ _ _ _ _ Hcols Hrow) as (c & Hck & Hcrel).
  exists e, c. split; [done|]. split; [done|]. split; [|done].
  rewrite (Heids k e Hek), (Hcids k c Hck). simpl. by rewrite Hai.
Qed.

Lemma episodes_and_colors_are_row_aligned_witness :
  exists new_episodes new_colors,
    DataImporter.and_then
      (DataImporter._import_episodes Sample.colors_data Sample.dates_data)
      (DataImporter._import_colors Sample.colors_data) empty_database
    = (Ok (), with_new_colors (with_new_episodes empty_database new_episodes)
                new_colors)
    /\ exists e c,
         new_episodes !! 1%nat = Some e /\ new_colors !! 1%nat = Some c
         /\ episode_id e = color_id c.
Proof.
  destruct (episodes_and_colors_are_row_aligned Sample.colors_data Sample.dates_data
              empty_database)
    as (eps & cols & Hrun & Hrows).
  - reflexivity.
  - vm_compute. reflexivity.
  - vm_compute. reflexivity.
  - vm_compute. reflexivity.
  - exists eps, cols. split; [exact Hrun|].
    destruct (Hrows 1%nat
                (Py.dict (zip DataImporter.colors_columns Sample.mountain_white))
                eq_refl)
      as (e & c & He & Hc & Hid & _).
    by exists e, c.
Defined.

(** ** The list endpoint and the shape of the answers *)

Lemma get_episodes_items (s : App.storage) :
  App.connect_error s = None -> App.execute_error s = None ->
  App.get_episodes s
  = App.JsonResponse 200
      (App.JArray
         (map (episode_object (App.date_column s))
              (rows (episodes (App.stored s))))).
Proof.
  intros Hc Hx.
  unfold App.get_episodes, App.get_db_connection, App.execute_select_all.
  rewrite Hc, Hx. simpl. unfold App.fetchall. by rewrite !map_map.
Qed.

(** What the episode import commits is what [GET /api/episodes] lists:
    after an import of valid rows the array has the objects of the Episodes
    that were stored before, followed by one object per color row, in row
    order, each the flat object of the Episode of its row. *)
Theorem get_episodes_lists_the_imported_episodes
  (colors_data dates_data : list (gmap string string)) (db : database)
  (date_column : string -> App.value) :
  forallb valid_color_row colors_data = true ->
  forallb (has_keys ["Title"; "Date"]) dates_data = true ->
  exists new,
    App.get_episodes
      (App.Storage None None
         (DataImporter._import_episodes colors_data dates_data db).2
         date_column)
    = App.JsonResponse 200
        (App.JArray
           (map (episode_object date_column) (rows (episodes db))
            ++ map (episode_object date_column) new))
    /\ Forall2 (episode_of_row dates_data) colors_data new.
Proof.
  intros Hv Hd.
  destruct (import_episodes_valid colors_data dates_data db Hv Hd)
    as (new & Hrun & Hall & _).
  exists new. split; [|exact Hall].
  rewrite Hrun, get_episodes_items by reflexivity. simpl.
  by rewrite map_app.
Qed.

Lemma get_episodes_lists_the_imported_episodes_witness :
  exists new,
    App.get_episodes
      (App.Storage None None
         (DataImporter._import_episodes Sample.colors_data Sample.dates_data
            Sample.two_episodes).2 Sample.iso_date)
    = App.JsonResponse 200
        (App.JArray
           (map (episode_object Sample.iso_date)
                (rows (episodes Sample.two_episodes))
            ++ map (episode_object Sample.iso_date) new))
    /\ length new = 2%nat.
Proof.
  destruct (get_episodes_lists_the_imported_episodes Sample.colors_data
              Sample.dates_data Sample.two_episodes Sample.iso_date)
    as (new & Hlist & Hall).
  - vm_compute. reflexivity.
  - vm_compute. reflexivity.
  - exists new. split; [exact Hlist|].
    by rewrite <- (Forall2_length _ _ _ Hall).
Defined.

Lemma episode_object_id (date_column : string -> App.value) (e : episode_row) :
  episode_object date_column e !! "episode_id"
  = Some (App.JNumber (episode_id e)).
Proof.
  unfold episode_object. rewrite lookup_fmap.
  rewrite (dict_zip_lookup App.description (App.row_tuple date_column e) 0
             "episode_id" (App.VInt (episode_id e))); [done|done|done|].
  apply (bool_decide_unpack _). vm_compute. reflexivity.
Qed.

(** The two endpoints agree: with unique ids in the table, an object that
    [GET /api/episodes/id] returns with status 200 is an item of the array
    of [GET /api/episodes] and carries that id, and every item of the array
    whose id is not negative (as every generated id is) is what the
    single-episode endpoint returns under some id. *)
Theorem get_episode_agrees_with_get_episodes (s : App.storage) :
  App.connect_error s = None -> App.execute_error s = None ->
  NoDup (map episode_id (rows (episodes (App.stored s)))) ->
  exists items,
    App.get_episodes s = App.JsonResponse 200 (App.JArray items)
    /\ (forall id obj,
          App.get_episode s id = App.Response 200 obj ->
          obj ∈ items /\ obj !! "episode_id" = Some (App.JNumber (Z.of_N id)))
    /\ (forall obj n,
          obj ∈ items -> obj !! "episode_id" = Some (App.JNumber n) -> 0 <= n ->
          exists id, App.get_episode s id = App.Response 200 obj).
Proof.
  intros Hc Hx Hnd.
  exists (map (episode_object (App.date_column s)) (rows (episodes (App.stored s)))).
  split; [by apply get_episodes_items|]. split.
  - intros id obj Hget.
    destruct (List.filter (fun e => episode_id e =? Z.of_N id)
                          (rows (episodes (App.stored s)))) as [|e l] eqn:Hf.
    + unfold App.get_episode, App.get_db_connection, App.execute_select_by_id in Hget.
      rewrite Hc, Hx in Hget. cbn [bind] in Hget. rewrite Hf in Hget.
      simpl in Hget. discriminate Hget.
    + assert (He : In e (List.filter (fun e => episode_id e =? Z.of_N id)
                                     (rows (episodes (App.stored s)))))
        by (rewrite Hf; by left).
      apply filter_In in He as [Hin Hid]. apply Z.eqb_eq in Hid.
      apply list_elem_of_In in Hin.
      rewrite (get_episode_found s e id Hc Hx Hnd Hin Hid) in Hget.
      injection Hget as <-. split.
      * by apply list_elem_of_fmap_2.
      * rewrite <- Hid. apply episode_object_id.
  - intros obj n Hobj Hn Hpos. apply list_elem_of_fmap in Hobj as (e & -> & He).
    rewrite episode_object_id in Hn. injection Hn as <-.
    exists (Z.to_N (episode_id e)). apply get_episode_found; try done.
    by rewrite Z2N.id.
Qed.

Lemma get_episode_agrees_with_get_episodes_witness :
  exists items,
    App.get_episodes
      (App.Storage None None
         (DataImporter.import_data Sample.data_dir empty_database).2
         Sample.iso_date)
    = App.JsonResponse 200 (App.JArray items)
    /\ length items = 2%nat.
Proof.
  destruct (get_episode_agrees_with_get_episodes
              (App.Storage None None
                 (DataImporter.import_data Sample.data_dir empty_database).2
                 Sample.iso_date))
    as (items & Hlist & _).
  - reflexivity.
  - reflexivity.
  - apply (bool_decide_unpack _). vm_compute. reflexivity.
  - exists items. split; [exact Hlist|].
    vm_compute in Hlist. injection Hlist as <-. reflexivity.
Defined.

(** Every answer of [GET /api/episodes/id] has one of three shapes: status
    200 with an object whose keys are the seven column names and whose
    [episode_id] is the id that was asked for (also when ids are not
    unique), status 404 with the fixed error object, or status 500 with an
    error object made from the text of a driver error. *)
Theorem get_episode_answer_shapes (s : App.storage) (id : N) :
  (App.status (App.get_episode s id) = 200
   /\ dom (App.body (App.get_episode s id)) = list_to_set App.description
   /\ App.body (App.get_episode s id) !! "episode_id"
      = Some (App.JNumber (Z.of_N id)))
  \/ App.get_episode s id = App.Response 404 (error_json "Episode not found")
  \/ exists err,
       App.get_episode s id = App.Response 500 (error_json (str err)).
Proof.
  unfold App.get_episode, App.get_db_connection, App.execute_select_by_id.
  destruct (App.connect_error s) as [err|]; [right; right; by exists err|].
  destruct (App.execute_error s) as [err|]; [right; right; by exists err|].
  cbn [bind].
  destruct (List.filter (fun e => episode_id e =? Z.of_N id)
                        (rows (episodes (App.stored s)))) as [|e l] eqn:Hf;
    [right; by left|].
  assert (He : In e (List.filter (fun e => episode_id e =? Z.of_N id)
                                 (rows (episodes (App.stored s)))))
    by (rewrite Hf; by left).
  apply filter_In in He as [_ Hid]. apply Z.eqb_eq in Hid.
  left. simpl. split; [done|]. split.
  - rewrite dom_fmap_L.
    apply (dict_zip_dom App.description (App.row_tuple (App.date_column s) e)).
    reflexivity.
  - rewrite <- Hid. apply (episode_object_id (App.date_column s) e).
Qed.

(** ** Empty files *)

(** An empty file is an error only when the header is to be read from it:
    without a column list the read of an existing file raises exactly when
    the file has no row, and then it is [StopIteration]; with a column list
    an empty file gives the empty list. *)
Theorem read_file_of_an_empty_file
  (fs : gmap string (list (list string))) (filename : string)
  (file : list (list string)) :
  fs !! filename = Some file ->
  (is_ok (CSVReader.read_file fs filename None) = false <-> file = [])
  /\ (file = [] -> CSVReader.read_file fs filename None = Raise StopIteration)
  /\ (file = [] ->
      forall columns, CSVReader.read_file fs filename (Some columns) = Ok []).
Proof.
  intros Hf. unfold CSVReader.read_file, CSVReader.open_reader. rewrite Hf.
  destruct file as [|header rest]; simpl.
  - repeat split; done.
  - repeat split; intros; discriminate.
Qed.

Lemma read_file_of_an_empty_file_witness :
  CSVReader.read_file (Py.dict [("empty.csv", [])]) "empty.csv" None
  = Raise StopIteration
  /\ CSVReader.read_file (Py.dict [("empty.csv", [])]) "empty.csv"
       (Some ["Title"; "Date"]) = Ok [].
Proof.
  destruct (read_file_of_an_empty_file (Py.dict [("empty.csv", [])]) "empty.csv" [])
    as (_ & Hheader & Hcolumns).
  - vm_compute. reflexivity.
  - split; [by apply Hheader | by apply Hcolumns].
Defined.

(** ** The entry point *)

Lemma import_data_raises (data_dir : gmap string (list (list string)))
  (db : database) :
  exists e, (DataImporter.import_data data_dir db).1 = Raise e.
Proof.
  unfold DataImporter.import_data.
  destruct (DataImporter.read_datasets data_dir) as [d|e]; [|by eauto].
  repeat apply and_then_raises. intros db'. by eexists.
Qed.

(** [main] never prints the success line: whatever the server and the files
    are, the run ends in the handler with the error line. *)
Theorem main_never_reports_success
  (srv : Main.server) (data_dir : gmap string (list (list string))) :
  exists e, (Main.main srv data_dir).1 = Main.ErrorDuringImport e.
Proof.
  unfold Main.main. destruct (Main.connect srv); [|by eauto].
  destruct (Schema.setup_tables (Main.schema srv)); [|by eauto].
  destruct (import_data_raises data_dir (Main.data srv)) as [e He].
  destruct (DataImporter.import_data data_dir (Main.data srv)) as [[[]|e'] db];
    simpl in *; [discriminate|by eauto].
Qed.

(** On a server that accepts the connection and the table definitions and
    whose [episodes], [colors] and [subject_matters] tables are, after the
    set-up, the ones the importer defines (a server without tables, for
    one), with three readable files whose 7-field color rows are numeric,
    [main] ends with the error line for [AttributeError] on
    [_import_episode_colors], after the Episodes, Colors and SubjectMatters
    have been committed: one Episode and one Color per 7-field color row. *)
Theorem main_ends_on_the_missing_method
  (srv : Main.server) (data_dir : gmap string (list (list string)))
  (schema' : list Schema.table_def) (cfile sfile dfile : list (list string)) :
  Main.refuses srv = None ->
  Schema.setup_tables (Main.schema srv) = Ok schema' ->
  (forall name, In name ["episodes"; "colors"; "subject_matters"] ->
                Schema.find_table schema' name
                = Schema.find_table Schema.queries name) ->
  data_dir !! DataImporter.colors_file = Some cfile ->
  data_dir !! DataImporter.subject_matter_file = Some sfile ->
  data_dir !! DataImporter.dates_file = Some dfile ->
  forallb numeric_row (records_of DataImporter.colors_columns cfile) = true ->
  exists new_episodes new_colors new_subject_matters,
    Main.main srv data_dir
    = (Main.ErrorDuringImport (inr (AttributeError "_import_episode_colors")),
       with_new_subject_matters
         (with_new_colors (with_new_episodes (Main.data srv) new_episodes)
            new_colors)
         new_subject_matters)
    /\ length new_episodes = length (records_of DataImporter.colors_columns cfile)
    /\ length new_colors = length (records_of DataImporter.colors_columns cfile).
Proof.
  intros Hacc Hsetup Hown Hc Hs Hd Hnum.
  destruct (import_data_valid_run data_dir cfile sfile dfile (Main.data srv)
              Hc Hs Hd Hnum)
    as (eps & cols & subs & Hrun & He & Hcl & _).
  exists eps, cols, subs. unfold Main.main, Main.connect.
  rewrite Hacc, Hsetup, Hrun. split; [done|]. split.
  - symmetry. by eapply Forall2_length.
  - symmetry. by eapply Forall2_length.
Qed.

Lemma main_ends_on_the_missing_method_witness :
  exists new_episodes new_colors new_subject_matters,
    Main.main (Main.Server None [] empty_database) Sample.data_dir
    = (Main.ErrorDuringImport (inr (AttributeError "_import_episode_colors")),
       with_new_subject_matters
         (with_new_colors (with_new_episodes empty_database new_episodes)
            new_colors)
         new_subject_matters)
    /\ length new_episodes = 2%nat.
Proof.
  destruct (main_ends_on_the_missing_method
              (Main.Server None [] empty_database) Sample.data_dir
              Schema.queries
              [Sample.mountain_brown; Sample.mountain_white]
              Sample.subject_rows Sample.dates_rows)
    as (eps & cols & subs & Hrun & He & _).
  - reflexivity.
  - vm_compute. reflexivity.
  - intros name Hname. reflexivity.
  - vm_compute. reflexivity.
  - vm_compute. reflexivity.
  - vm_compute. reflexivity.
  - vm_compute. reflexivity.
  - exists eps, cols, subs. split; [exact Hrun|]. rewrite He. reflexivity.
Defined.
